(** * UPI fraud detection: the risk-scoring engine of [fraud_detector.py]

    A shallow embedding of [backend/ml_model/fraud_detector.py]: the address
    validator, the rule-based scorer, the feature encoder and the
    model-or-rules policy of [FraudDetector.predict].

    Python floats are IEEE 754 binary64 numbers and are embedded as Rocq's
    primitive floats, so that sums such as [0.3 + 0.2] round as they do in
    the interpreter.  Strings are embedded for ASCII text, one [ascii] per
    character: [lower], [isdigit] and [len] are those of ASCII, and the rupee
    sign of the reason texts stands as its UTF-8 bytes.  Exceptions are
    explicit: a function that may raise returns a [result].  What the code
    writes with [print] is left out.

    The address checks of [backend/transactions/serializers.py], which a
    request passes before its transaction is scored, are embedded after the
    detector, and are related to the detector's own checks in the last
    part. *)

From Stdlib Require Import Floats ZArith Lia Bool Ascii String List.
From Stdlib Require Import DecimalString.
From stdpp Require Import base option list strings gmap.

Set Warnings "-inexact-float".

Local Open Scope string_scope.
Local Open Scope list_scope.
Local Open Scope Z_scope.

(** ** Exceptions *)

Inductive exn :=
| AttributeError
| TypeError
| ValueError
| OverflowError
| ZeroDivisionError
| RuntimeError.

Inductive result (A : Type) :=
| Ok (a : A)
| Raise (e : exn).

Arguments Ok {A} a.
Arguments Raise {A} e.

#[global] Instance result_ret : MRet result := fun A a => Ok a.
#[global] Instance result_bind : MBind result := fun A B f m =>
  match m with
  | Ok a => f a
  | Raise e => Raise e
  end.

(** [try: body except Exception: handler] *)
Definition try_except {A} (body : result A) (handler : exn -> result A) : result A :=
  match body with
  | Ok a => Ok a
  | Raise e => handler e
  end.

Definition returns {A} (r : result A) : Prop := exists a, r = Ok a.

(** ** The parts of the Python runtime the detector calls *)

Module Py.

(** *** Floats *)

(** [float(n)] for an int [n], correctly rounded.  The ints the detector
    converts are an hour, a weekday, a length and a type code: none is beyond
    the range of the doubles, where Python would raise. *)
Definition float_of_Z (z : Z) : float :=
  SF2Prim (binary_normalize prec emax z 0 false).

(** [x > y] and [x <= y] on floats are the IEEE comparisons ([PrimFloat.ltb]
    and [leb]), as is [x == y] ([eqb]); every comparison with NaN is false. *)
Definition gt (x y : float) : bool := PrimFloat.ltb y x.
Definition le (x y : float) : bool := PrimFloat.leb x y.

(** [min(a, b)]: the first argument unless the second is smaller. *)
Definition min (a b : float) : float := if PrimFloat.ltb b a then b else a.

(** C's [fmod] on doubles: the remainder of the truncated division, which is
    exact and carries the sign of [x]. *)
Definition fmod (x y : float) : float :=
  match Prim2SF x, Prim2SF y with
  | S754_nan, _ | _, S754_nan => nan
  | S754_infinity _, _ => nan
  | _, S754_zero _ => nan
  | S754_zero _, _ => x
  | S754_finite _ _ _, S754_infinity _ => x
  | S754_finite sx mx ex, S754_finite _ my ey =>
      let e := Z.min ex ey in
      let r := (Z.pos mx * 2 ^ (ex - e)) mod (Z.pos my * 2 ^ (ey - e)) in
      if r =? 0 then (if sx then PrimFloat.neg_zero else PrimFloat.zero)
      else SF2Prim (binary_normalize prec emax (cond_Zopp sx r) e false)
  end.

(** [vx % wx] on floats (CPython's [float_rem]): [fmod], moved to the sign of
    the divisor. *)
Definition float_rem (vx wx : float) : result float :=
  if PrimFloat.eqb wx 0 then Raise ZeroDivisionError
  else
    let md := fmod vx wx in
    Ok (if negb (PrimFloat.eqb md 0)
        then (if xorb (PrimFloat.ltb wx 0) (PrimFloat.ltb md 0)
              then PrimFloat.add md wx else md)
        else (if get_sign wx then PrimFloat.neg_zero else PrimFloat.zero)).

(** [int(x)] for a float [x]: truncation toward zero. *)
Definition int_of_float (x : float) : result Z :=
  match Prim2SF x with
  | S754_nan => Raise ValueError
  | S754_infinity _ => Raise OverflowError
  | S754_zero _ => Ok 0
  | S754_finite s m e =>
      Ok (cond_Zopp s (if 0 <=? e then Z.pos m * 2 ^ e else Z.pos m / 2 ^ (- e)))
  end.

(** [a / b] for ints [a] and [b] (true division).  The operands here are
    string lengths, far below [2^53], where the result is the float quotient
    of the two exact conversions. *)
Definition int_truediv (a b : Z) : result float :=
  if b =? 0 then Raise ZeroDivisionError
  else Ok (PrimFloat.div (float_of_Z a) (float_of_Z b)).

(** [numpy]'s cast of a double to [float32]: rounding to the nearest single
    (24-bit significand), overflowing to an infinity.  A single is held as the
    double of the same value. *)
Definition float32 (x : float) : float :=
  match Prim2SF x with
  | S754_finite s m e => SF2Prim (binary_normalize 24 128 (cond_Zopp s (Z.pos m)) e false)
  | _ => x
  end.

(** *** Strings *)

Definition code (c : ascii) : Z := Z.of_nat (nat_of_ascii c).

Definition is_ascii_upper (c : ascii) : bool := (65 <=? code c) && (code c <=? 90).
Definition is_ascii_lower (c : ascii) : bool := (97 <=? code c) && (code c <=? 122).

(** [c.isdigit()] *)
Definition isdigit (c : ascii) : bool := (48 <=? code c) && (code c <=? 57).

Definition lower_char (c : ascii) : ascii :=
  if is_ascii_upper c then ascii_of_nat (nat_of_ascii c + 32) else c.

(** [s.lower()] on ASCII text: the letters A to Z are mapped and every other
    character is kept.  On other text [str.lower] does more (it maps letters
    outside ASCII and may change the number of characters), so a statement
    about lowering a string that the code has not matched against the address
    pattern assumes [isascii]. *)
Fixpoint lower (s : string) : string :=
  match s with
  | EmptyString => EmptyString
  | String c s' => String (lower_char c) (lower s')
  end.

(** [s.isascii()]: every character is below 128. *)
Definition isascii (s : string) : bool :=
  forallb (fun c => code c <? 128) (list_ascii_of_string s).

(** [len(s)] *)
Definition len (s : string) : Z := Z.of_nat (String.length s).

(** Truthiness of an optional string: [None] and [''] are false. *)
Definition truthy (s : option string) : bool :=
  match s with
  | Some (String _ _) => true
  | _ => false
  end.

(** [needle in hay] on strings: [needle] occurs as a substring. *)
Fixpoint contains (needle hay : string) : bool :=
  String.prefix needle hay ||
  match hay with
  | EmptyString => false
  | String _ hay' => contains needle hay'
  end.

(** [s.split(sep)] for a one-character separator; [split_cons] puts a
    character in front of the first piece. *)
Definition split_cons (c : ascii) (parts : list string) : list string :=
  match parts with
  | [] => [String c EmptyString]
  | p :: ps => String c p :: ps
  end.

Fixpoint split (sep : ascii) (s : string) : list string :=
  match s with
  | EmptyString => [EmptyString]
  | String c s' =>
      if Ascii.eqb c sep then EmptyString :: split sep s'
      else split_cons c (split sep s')
  end.

(** [parts[0]] and [parts[-1]] of the list a [split] returns. *)
Definition first (parts : list string) : string := List.hd EmptyString parts.
Definition final (parts : list string) : string := List.last parts EmptyString.

(** [x in xs] on a list of strings *)
Definition mem (x : string) (xs : list string) : bool :=
  existsb (String.eqb x) xs.

(** [str(n)] for an int *)
Definition str_of_int (n : Z) : string := NilZero.string_of_int (Z.to_int n).

(** The [','] format of an int, [f"{n:,}"]: digits in groups of three. *)
Fixpoint group3 (rev_digits : list ascii) : list ascii :=
  match rev_digits with
  | a :: b :: c :: ((_ :: _) as more) => a :: b :: c :: ","%char :: group3 more
  | _ => rev_digits
  end.

Definition format_thousands (n : Z) : string :=
  let digits := list_ascii_of_string (str_of_int (Z.abs n)) in
  let grouped := string_of_list_ascii (rev (group3 (rev digits))) in
  if n <? 0 then String "-" grouped else grouped.

(** *** [str(x)] for a float

    [repr] prints the shortest decimal that reads back as the same double,
    the nearest to it among the shortest ones. *)

(** The double [m * 2^e] is the nearest double of every real between its two
    neighbouring midpoints, the midpoints included when [m] is even.  In
    units of [2^(e-2)] the double is [4m] and the midpoints are [lo] and
    [hi]; [c * 10^q] is compared with them after clearing denominators. *)
Definition shortest_at (m : positive) (e q : Z) : option Z :=
  let boundary := (Z.pos m =? 2 ^ 52) && (-1074 <? e) in
  let x := 4 * Z.pos m in
  let lo := if boundary then x - 1 else x - 2 in
  let hi := x + 2 in
  let a := 10 ^ Z.max q 0 * 2 ^ Z.max (2 - e) 0 in
  let b := 10 ^ Z.max (- q) 0 * 2 ^ Z.max (e - 2) 0 in
  let closed := Z.even (Z.pos m) in
  let c_min := if closed then (lo * b + a - 1) / a else (lo * b) / a + 1 in
  let c_max := if closed then (hi * b) / a else (hi * b + a - 1) / a - 1 in
  let down := (x * b) / a in
  let half := Z.compare (2 * ((x * b) mod a)) a in
  let nearest :=
    match half with
    | Lt => down
    | Gt => down + 1
    | Eq => if Z.even down then down else down + 1
    end in
  if c_min <=? c_max then Some (Z.max c_min (Z.min c_max nearest)) else None.

Fixpoint shortest_from (fuel : nat) (m : positive) (e q : Z) : Z * Z :=
  match fuel with
  | O => (0, q)
  | S fuel' =>
      match shortest_at m e q with
      | Some c => (c, q)
      | None => shortest_from fuel' m e (q - 1)
      end
  end.

(** The digits [c] and the exponent [q] of the shortest decimal [c * 10^q]:
    the search starts above the decimal order of the double. *)
Definition shortest (m : positive) (e : Z) : Z * Z :=
  let bits := Z.pos (digits2_pos m) + e in
  let q0 := (if 0 <=? bits then bits * 30103 / 100000 else bits * 30102 / 100000) + 2 in
  shortest_from 40 m e q0.

Definition zeros (n : Z) : string := string_of_list_ascii (repeat "0"%char (Z.to_nat n)).

Definition take_str (n : Z) (s : string) : string := String.substring 0 (Z.to_nat n) s.
Definition drop_str (n : Z) (s : string) : string :=
  String.substring (Z.to_nat n) (String.length s - Z.to_nat n) s.

(** The layout of [repr]: exponent notation when the decimal point would sit
    more than 16 places right or more than 3 places left of the digits. *)
Definition layout (digits : string) (decpt : Z) : string :=
  let n := len digits in
  if (decpt <=? -4) || (16 <? decpt) then
    let ex := decpt - 1 in
    let mant := if n =? 1 then digits
                else take_str 1 digits +:+ "." +:+ drop_str 1 digits in
    let exdigits := str_of_int (Z.abs ex) in
    mant +:+ "e" +:+ (if ex <? 0 then "-" else "+") +:+
    (if len exdigits <? 2 then "0" +:+ exdigits else exdigits)
  else if decpt <=? 0 then "0." +:+ zeros (- decpt) +:+ digits
  else if decpt <? n then take_str decpt digits +:+ "." +:+ drop_str decpt digits
  else digits +:+ zeros (decpt - n) +:+ ".0".

Definition str_of_float (x : float) : string :=
  match Prim2SF x with
  | S754_nan => "nan"
  | S754_infinity s => if s then "-inf" else "inf"
  | S754_zero s => if s then "-0.0" else "0.0"
  | S754_finite s m e =>
      let '(c, q) := shortest m e in
      let digits := str_of_int c in
      (if s then "-" else EmptyString) +:+ layout digits (len digits + q)
  end.

(** *** Regular expressions: the fragment of [re] that the address pattern
    is written in *)

Inductive re_item :=
| Bol                                        (* ^ *)
| Eol                                        (* $ *)
| Lit (c : ascii)                            (* one literal character *)
| AtLeast (n : nat) (set : ascii -> bool).   (* [set]{n,} *)

Definition newline : ascii := ascii_of_nat 10.

(** Without [re.MULTILINE], [$] matches at the end of the string and just
    before a newline that ends the string. *)
Definition at_end (s : string) : bool :=
  match s with
  | EmptyString => true
  | String c EmptyString => Ascii.eqb c newline
  | _ => false
  end.

(** A greedy repetition [[set]{n,}] that has taken [k] characters so far:
    it takes one more, or stops when [k] reaches [n] and lets [rest] match
    what follows. *)
Fixpoint run (n : nat) (set : ascii -> bool) (rest : bool -> string -> bool)
    (k : nat) (start : bool) (s : string) : bool :=
  match s with
  | String c s' =>
      (set c && run n set rest (S k) false s') ||
      ((n <=? k)%nat && rest start s)
  | EmptyString => (n <=? k)%nat && rest start s
  end.

(** Matching the items from the current position; [start] tells whether the
    position is the beginning of the string. *)
Fixpoint match_here (items : list re_item) (start : bool) (s : string) : bool :=
  match items with
  | [] => true
  | Bol :: items' => start && match_here items' start s
  | Eol :: items' => at_end s && match_here items' start s
  | Lit c :: items' =>
      match s with
      | String c' s' => Ascii.eqb c c' && match_here items' false s'
      | EmptyString => false
      end
  | AtLeast n set :: items' => run n set (match_here items') O start s
  end.

(** [bool(re.match(pattern, s))]: a match anchored at the beginning. *)
Definition re_match (pattern : list re_item) (s : string) : bool :=
  match_here pattern true s.

(** *** numpy *)

(** [np.array(xs).reshape(1, 8, 8, 1)]: the 64 elements in row-major order;
    any other number of elements cannot be reshaped. *)
Definition reshape_1_8_8_1 (xs : list float) : result (list float) :=
  if (length xs =? 64)%nat then Ok xs else Raise ValueError.

(** [.astype(np.float32)] *)
Definition astype_float32 (xs : list float) : list float := map float32 xs.

End Py.

(** ** Data model *)

(** [created_at] is a [datetime]; the detector reads its [hour] attribute and
    calls its [weekday()] method. *)
Record datetime := {
  hour : Z;
  weekday : Z;
}.

(** A [Transaction] model instance, as far as the detector reads it.

    [amount] is only read through [float(transaction.amount)]: the field
    holds the outcome of that conversion, the double of a numeric amount or
    the exception [float] raises on anything else ([TypeError] on [None],
    [ValueError] on text that is not a number).  The other fields are [None]
    or a value. *)
Record Transaction := {
  amount : result float;
  transaction_type : option string;
  created_at : option datetime;
  sender_upi : option string;
  receiver_upi : option string;
  location : option string;
  device_id : option string;
}.

(** The values stored in a verdict dictionary. *)
Inductive value :=
| VBool (b : bool)
| VFloat (x : float)
| VStr (s : string)
| VList (l : list string).

(** The verdict is a [dict] with string keys. *)
Abbreviation verdict := (gmap string value).

(** [FraudDetectionCNN] is defined in [cnn_model.py], outside this
    development.  The detector reads an instance's [model] attribute (is it
    [None]?) and calls [predict(features)[0][0]], converted by [float], which
    may raise. *)
Record FraudDetectionCNN := {
  cnn_model_loaded : bool;
  cnn_predict : list float -> result float;
}.

Record FraudDetector := {
  model : option FraudDetectionCNN;
}.

(** What [load_model] reads from the process: the two configured paths, the
    file system, and the loading of the artifacts by [FraudDetectionCNN]. *)
Record Environment := {
  ML_MODEL_PATH : result string;
  SCALER_PATH : result string;
  path_exists : string -> bool;
  cnn_load_model : string -> string -> result FraudDetectionCNN;
}.

(** ** [FraudDetector] *)

Local Open Scope float_scope.

(** [load_model]: the model is kept only when both files exist and loading
    them succeeds; every other outcome, an exception included, leaves
    [self.model = None]. *)
Definition load_model (env : Environment) (self : FraudDetector) : FraudDetector :=
  let attempt :=
    model_path ← ML_MODEL_PATH env;
    scaler_path ← SCALER_PATH env;
    if path_exists env model_path && path_exists env scaler_path then
      loaded ← cnn_load_model env model_path scaler_path;
      Ok {| model := Some loaded |}
    else
      Ok {| model := None |} in
  match attempt with
  | Ok self' => self'
  | Raise _ => {| model := None |}
  end.

Definition __init__ (env : Environment) : FraudDetector :=
  let self := {| model := None |} in
  load_model env self.

(** The [while len(features) < 64] loop of [extract_features]; each turn
    appends one element, so 64 turns are enough from any list. *)
Fixpoint pad_features (turns : nat) (features : list float) (amount hour : float)
  : list float :=
  match turns with
  | O => features
  | S turns' =>
      if (length features <? 64)%nat then
        let features :=
          if (length features <? 16)%nat then
            features ++ [if (length features =? 8)%nat then amount * hour else 0.0]
          else
            features ++ [0.0] in
        pad_features turns' features amount hour
      else features
  end.

Definition type_encoding : gmap string Z :=
  list_to_map [("SEND", 0%Z); ("RECEIVE", 1%Z); ("REQUEST", 2%Z)].

(** [obj.attr] on a field that may hold [None] *)
Definition attr {A} (field : option A) : result A :=
  match field with
  | Some a => Ok a
  | None => Raise AttributeError
  end.

(** [len(s)] on a field that may hold [None] *)
Definition len_of (field : option string) : result Z :=
  match field with
  | Some s => Ok (Py.len s)
  | None => Raise TypeError
  end.

(** The Python list [features] when the padding loop is left. *)
Definition feature_list (transaction : Transaction) : result (list float) :=
  let features := [] in
  (* 1. Amount (normalized) *)
  amount ← amount transaction;
  let features := features ++ [amount / 100000.0] in
  (* 2. Transaction type *)
  let encoded := default 0%Z (transaction_type transaction ≫= (type_encoding !!.)) in
  let features := features ++ [Py.float_of_Z encoded / 2.0] in
  (* 3. Time features *)
  created ← attr (created_at transaction);
  let hour := Py.float_of_Z (hour created) / 23.0 in
  let day_of_week := Py.float_of_Z (weekday created) / 6.0 in
  let features := features ++ [hour; day_of_week] in
  (* 4. UPI ID features *)
  sender_chars ← len_of (sender_upi transaction);
  let sender_len := Py.float_of_Z sender_chars / 100.0 in
  receiver_chars ← len_of (receiver_upi transaction);
  let receiver_len := Py.float_of_Z receiver_chars / 100.0 in
  let features := features ++ [sender_len; receiver_len] in
  (* 5. Location present *)
  let has_location := if Py.truthy (location transaction) then 1.0 else 0.0 in
  let features := features ++ [has_location] in
  (* 6. Device ID present *)
  let has_device := if Py.truthy (device_id transaction) then 1.0 else 0.0 in
  let features := features ++ [has_device] in
  (* padding up to 64 *)
  Ok (pad_features 64 features amount hour).

(** [extract_features]: the list, cut to 64 elements, as a [float32] array of
    shape (1, 8, 8, 1). *)
Definition extract_features (transaction : Transaction) : result (list float) :=
  features ← feature_list transaction;
  shaped ← Py.reshape_1_8_8_1 (take 64 features);
  Ok (Py.astype_float32 shaped).

(** The character sets of the address pattern. *)
Definition is_letter (c : ascii) : bool :=
  Py.is_ascii_lower c || Py.is_ascii_upper c.

Definition is_local_char (c : ascii) : bool :=
  is_letter c || Py.isdigit c ||
  Ascii.eqb c "."%char || Ascii.eqb c "-"%char || Ascii.eqb c "_"%char.

(** [r'^[a-zA-Z0-9.\-_]{3,}@[a-zA-Z]{3,}$'] *)
Definition upi_pattern : list Py.re_item :=
  [Py.Bol; Py.AtLeast 3 is_local_char; Py.Lit "@"%char; Py.AtLeast 3 is_letter; Py.Eol].

Definition _validate_upi_format (upi_id : option string) : bool :=
  match upi_id with
  | Some upi =>
      if negb (Py.truthy upi_id) then false
      else Py.re_match upi_pattern upi
  | None => false
  end.

Definition suspicious_keywords : list string :=
  ["test"; "fake"; "dummy"; "fraud"; "scam"; "123456"; "admin"; "temp"].

(** [sum(c.isdigit() for c in username)] *)
Definition count_digits (username : string) : Z :=
  Z.of_nat (length (List.filter Py.isdigit (list_ascii_of_string username))).

Definition _is_suspicious_upi (upi_id : option string) : result bool :=
  match upi_id with
  | Some upi =>
      if negb (Py.truthy upi_id) then Ok true
      else
        let upi_lower := Py.lower upi in
        if existsb (fun keyword => Py.contains keyword upi_lower) suspicious_keywords
        then Ok true
        else
          let username := Py.first (Py.split "@" upi) in
          too_many_digits ←
            (if (0 <? Py.len username)%Z then
               fraction ← Py.int_truediv (count_digits username) (Py.len username);
               Ok (Py.gt fraction 0.7)
             else Ok false);
          if too_many_digits : bool then Ok true
          else if (Py.len username <? 3)%Z then Ok true
          else Ok false
  | None => Ok true
  end.

(** The sentinel texts of a location that could not be read. *)
Definition unavailable_locations : list string :=
  ["Location unavailable"; "Geolocation not supported"; "Unknown"].

(** [x in xs] for a field that may hold [None] *)
Definition field_in (field : option string) (xs : list string) : bool :=
  match field with
  | Some s => Py.mem s xs
  | None => false
  end.

(** [a == b] on two fields that may hold [None] *)
Definition field_eq (a b : option string) : bool :=
  match a, b with
  | Some x, Some y => String.eqb x y
  | None, None => true
  | _, _ => false
  end.

(** The running state of the scorer: [fraud_score] and [reasons]. *)
Definition score_state : Type := float * list string.

(** [fraud_score += weight; reasons.append(reason)] *)
Definition hit (weight : float) (reason : string) (st : score_state) : score_state :=
  (fst st + weight, snd st ++ [reason]).

(** [fraud_score += weight] *)
Definition add_score (weight : float) (st : score_state) : score_state :=
  (fst st + weight, snd st).

(** [reasons.append(reason)] *)
Definition append_reason (reason : string) (st : score_state) : score_state :=
  (fst st, snd st ++ [reason]).

Definition rule_based_verdict (now : string) (st : score_state) : verdict :=
  let is_fraud := Py.gt (fst st) 0.5 in
  <["is_fraud" := VBool is_fraud]>
  (<["fraud_probability" := VFloat (Py.min (fst st) 1.0)]>
  (<["detection_method" := VStr "rule_based"]>
  (<["reasons" := VList (snd st)]>
  (<["timestamp" := VStr now]> ∅)))).

(** [rule_based_detection]; [now] is [datetime.now().isoformat()]. *)
Definition rule_based_detection (now : string) (transaction : Transaction)
  : result verdict :=
  let st : score_state := (0.0, []) in
  amount ← amount transaction;
  (* Rule 1: Very high amount *)
  let st :=
    if Py.gt amount 50000 then hit 0.3 "High transaction amount (>₹50,000)" st
    else if Py.gt amount 100000 then hit 0.5 "Extremely high amount (>₹1,00,000)" st
    else st in
  (* Rule 2: Unusual time *)
  created ← attr (created_at transaction);
  let hour := hour created in
  let st :=
    if (hour <? 6)%Z || (22 <? hour)%Z then
      hit 0.2 ("Unusual transaction time (" +:+ Py.str_of_int hour +:+ ":00 hrs)") st
    else st in
  (* Rule 3: Round amounts *)
  thousands ← Py.float_rem amount 1000;
  st ←
    (if PrimFloat.eqb thousands 0 && Py.gt amount 10000 then
       whole ← Py.int_of_float amount;
       Ok (hit 0.15 ("Round amount (₹" +:+ Py.format_thousands whole +:+ ")") st)
     else Ok st);
  (* Rule 4: Missing device or location info *)
  let st :=
    if negb (Py.truthy (device_id transaction)) ||
       negb (Py.truthy (location transaction)) ||
       field_in (location transaction) unavailable_locations
    then hit 0.35 "Missing or invalid location/device data" st
    else st in
  (* Rule 5: Same sender and receiver *)
  let st :=
    if field_eq (sender_upi transaction) (receiver_upi transaction)
    then hit 0.6 "Self-transfer detected (same UPI IDs)" st
    else st in
  (* Rule 6: Invalid UPI format *)
  let sender_valid := _validate_upi_format (sender_upi transaction) in
  let receiver_valid := _validate_upi_format (receiver_upi transaction) in
  let st :=
    if negb sender_valid || negb receiver_valid then
      let st := add_score 0.5 st in
      let st := if negb sender_valid then append_reason "Invalid sender UPI format" st else st in
      let st := if negb receiver_valid then append_reason "Invalid receiver UPI format" st else st in
      st
    else st in
  (* Rule 7: Suspicious UPI patterns *)
  sender_suspicious ← _is_suspicious_upi (sender_upi transaction);
  suspicious ←
    (if sender_suspicious : bool then Ok true
     else _is_suspicious_upi (receiver_upi transaction));
  let st :=
    if suspicious : bool then hit 0.25 "Suspicious UPI pattern detected" st else st in
  (* Rule 8: Multiple small transactions pattern *)
  let st :=
    if Py.le 100 amount && Py.le amount 500
    then hit 0.1 "Small amount transaction pattern" st
    else st in
  (* Rule 9: Very unusual amounts *)
  odd_amount ←
    (if Py.gt amount 1000 then
       units ← Py.float_rem amount 10;
       Ok (negb (PrimFloat.eqb units 0))
     else Ok false);
  let st :=
    if odd_amount : bool then
      if negb (Py.mem (Py.final (Py.split "." (Py.str_of_float amount))) ["0"; "00"; "5"; "50"])
      then hit 0.1 "Unusual amount precision" st
      else st
    else st in
  Ok (rule_based_verdict now st).

Definition cnn_verdict (now : string) (probability : float) : verdict :=
  let is_fraud := Py.gt probability 0.5 in
  <["is_fraud" := VBool is_fraud]>
  (<["fraud_probability" := VFloat probability]>
  (<["detection_method" := VStr "cnn_model"]>
  (<["confidence" := VFloat (abs (probability - 0.5) * 2)]>
  (<["timestamp" := VStr now]> ∅)))).

(** [self.model is not None and self.model.model is not None] *)
Definition model_ready (self : FraudDetector) : option FraudDetectionCNN :=
  match model self with
  | Some cnn => if cnn_model_loaded cnn then Some cnn else None
  | None => None
  end.

Definition predict (self : FraudDetector) (now : string) (transaction : Transaction)
  : result verdict :=
  try_except
    (match model_ready self with
     | Some cnn =>
         features ← extract_features transaction;
         probability ← cnn_predict cnn features;
         Ok (cnn_verdict now probability)
     | None =>
         rule_based_detection now transaction
     end)
    (fun _ => rule_based_detection now transaction).

(** A process: the detector is built once, then answers the calls it gets. *)
Definition serve (env : Environment) (calls : list (string * Transaction))
  : list (result verdict) :=
  let self := __init__ env in
  map (fun call => predict self (fst call) (snd call)) calls.

(** ** The scorer read as a table of rules

    The ten rules of [rule_based_detection] in the order the function states
    them, each with the weight it adds, the condition under which it fires
    and the reasons it appends.  [ExtremelyHighAmount] is the [elif] branch
    of the first rule: it is tried only when [HighAmount] did not fire. *)

Inductive rule :=
| HighAmount
| ExtremelyHighAmount
| OddHours
| RoundAmount
| MissingContext
| SelfTransfer
| InvalidAddress
| SuspiciousAddress
| SmallAmount
| UnusualPrecision.

Definition rules : list rule :=
  [HighAmount; ExtremelyHighAmount; OddHours; RoundAmount; MissingContext;
   SelfTransfer; InvalidAddress; SuspiciousAddress; SmallAmount; UnusualPrecision].

Definition weight (r : rule) : float :=
  match r with
  | HighAmount => 0.3
  | ExtremelyHighAmount => 0.5
  | OddHours => 0.2
  | RoundAmount => 0.15
  | MissingContext => 0.35
  | SelfTransfer => 0.6
  | InvalidAddress => 0.5
  | SuspiciousAddress => 0.25
  | SmallAmount => 0.1
  | UnusualPrecision => 0.1
  end.

(** A boolean that the code computes with calls that may raise; when the
    call raises there is no verdict at all, and the table reads [false]. *)
Definition holds (r : result bool) : bool :=
  match r with
  | Ok b => b
  | Raise _ => false
  end.

Definition round_amount (amount : float) : bool :=
  holds (thousands ← Py.float_rem amount 1000;
         Ok (PrimFloat.eqb thousands 0 && Py.gt amount 10000)).

Definition suspicious_pair (transaction : Transaction) : bool :=
  holds (sender_suspicious ← _is_suspicious_upi (sender_upi transaction);
         if sender_suspicious : bool then Ok true
         else _is_suspicious_upi (receiver_upi transaction)).

Definition unusual_precision (amount : float) : bool :=
  holds (if Py.gt amount 1000 then
           units ← Py.float_rem amount 10;
           Ok (negb (PrimFloat.eqb units 0))
         else Ok false) &&
  negb (Py.mem (Py.final (Py.split "." (Py.str_of_float amount))) ["0"; "00"; "5"; "50"]).

Definition triggered (amount : float) (created : datetime) (transaction : Transaction)
    (r : rule) : bool :=
  match r with
  | HighAmount => Py.gt amount 50000
  | ExtremelyHighAmount => negb (Py.gt amount 50000) && Py.gt amount 100000
  | OddHours => (hour created <? 6)%Z || (22 <? hour created)%Z
  | RoundAmount => round_amount amount
  | MissingContext =>
      negb (Py.truthy (device_id transaction)) ||
      negb (Py.truthy (location transaction)) ||
      field_in (location transaction) unavailable_locations
  | SelfTransfer => field_eq (sender_upi transaction) (receiver_upi transaction)
  | InvalidAddress =>
      negb (_validate_upi_format (sender_upi transaction)) ||
      negb (_validate_upi_format (receiver_upi transaction))
  | SuspiciousAddress => suspicious_pair transaction
  | SmallAmount => Py.le 100 amount && Py.le amount 500
  | UnusualPrecision => unusual_precision amount
  end.

Definition whole_part (amount : float) : Z :=
  match Py.int_of_float amount with
  | Ok whole => whole
  | Raise _ => 0%Z
  end.

Definition reason_texts (amount : float) (created : datetime) (transaction : Transaction)
    (r : rule) : list string :=
  match r with
  | HighAmount => ["High transaction amount (>₹50,000)"]
  | ExtremelyHighAmount => ["Extremely high amount (>₹1,00,000)"]
  | OddHours =>
      ["Unusual transaction time (" +:+ Py.str_of_int (hour created) +:+ ":00 hrs)"]
  | RoundAmount =>
      ["Round amount (₹" +:+ Py.format_thousands (whole_part amount) +:+ ")"]
  | MissingContext => ["Missing or invalid location/device data"]
  | SelfTransfer => ["Self-transfer detected (same UPI IDs)"]
  | InvalidAddress =>
      (if _validate_upi_format (sender_upi transaction) then []
       else ["Invalid sender UPI format"]) ++
      (if _validate_upi_format (receiver_upi transaction) then []
       else ["Invalid receiver UPI format"])
  | SuspiciousAddress => ["Suspicious UPI pattern detected"]
  | SmallAmount => ["Small amount transaction pattern"]
  | UnusualPrecision => ["Unusual amount precision"]
  end.

(** The rules that fire on a transaction, in the order of the table. *)
Definition fired (amount : float) (created : datetime) (transaction : Transaction)
  : list rule :=
  List.filter (triggered amount created transaction) rules.

(** The sum of the weights, added up from [0.0] in the order of the list. *)
Definition total_weight (rs : list rule) : float :=
  fold_left (fun score r => score + weight r) rs 0.0.

(** One rule applied to the running state. *)
Definition apply_rule (amount : float) (created : datetime) (transaction : Transaction)
    (st : score_state) (r : rule) : score_state :=
  if triggered amount created transaction r
  then (fst st + weight r, snd st ++ reason_texts amount created transaction r)
  else st.

(** ** Address syntax, in the words of the specification

    A local part of at least three characters among letters, digits, [.],
    [-] and [_], then [@], then a provider of at least three letters, and
    nothing else. *)

Definition all_chars (set : ascii -> bool) (s : string) : bool :=
  forallb set (list_ascii_of_string s).

Definition address_syntax (s : string) : Prop :=
  exists local_part provider,
    s = local_part +:+ "@" +:+ provider /\
    (3 <= String.length local_part)%nat /\ all_chars is_local_char local_part = true /\
    (3 <= String.length provider)%nat /\ all_chars is_letter provider = true.

Definition newline_string : string := String Py.newline EmptyString.

(** ** Suspicious addresses, in the words of the specification *)

(** The local part: what stands before the first [@]. *)
Definition local_part (address : string) : string :=
  Py.first (Py.split "@" address).

(** The digit fraction [digits / length] of a non-empty name exceeds [0.7]. *)
Definition too_many_digits (username : string) : bool :=
  holds (if (0 <? Py.len username)%Z then
           fraction ← Py.int_truediv (count_digits username) (Py.len username);
           Ok (Py.gt fraction 0.7)
         else Ok false).

(** Whether both configured artifact files are there. *)
Definition artifacts_present (env : Environment) : bool :=
  match ML_MODEL_PATH env, SCALER_PATH env with
  | Ok model_path, Ok scaler_path =>
      path_exists env model_path && path_exists env scaler_path
  | _, _ => false
  end.

(** ** Definitions used to state the lemmas *)

(** Whether a repetition that matched [u] still stands at the beginning of
    the string. *)
Definition start_after (u : string) (start : bool) : bool :=
  match u with
  | EmptyString => start
  | String _ _ => false
  end.

Definition not_newline (c : ascii) : bool := negb (Ascii.eqb c Py.newline).

(** A binary float that is zero or has magnitude at most [2^k]. *)
Definition within (k : Z) (x : spec_float) : Prop :=
  match x with
  | S754_zero _ => True
  | S754_finite _ m e => (e <= k)%Z /\ (Z.pos m <= 2 ^ (k - e))%Z
  | _ => False
  end.

(** A binary float that is [+0] or positive and at most [1]. *)
Definition in_unit_interval (r : spec_float) : Prop :=
  r = S754_zero false \/
  exists m e, r = S754_finite false m e /\ (e <= 0)%Z /\ (Z.pos m <= 2 ^ (0 - e))%Z.

(** The transactions used as examples. *)
Definition example_transaction (amount : float) (at_hour : Z) : Transaction :=
  {| amount := Ok amount;
     transaction_type := Some "SEND";
     created_at := Some {| hour := at_hour; weekday := 2 |};
     sender_upi := Some "ravi.kumar@icici";
     receiver_upi := Some "john@paytm";
     location := Some "Mumbai";
     device_id := Some "device-1" |}.

Definition malformed_transaction : Transaction :=
  {| amount := Raise ValueError;
     transaction_type := Some "SEND";
     created_at := Some {| hour := 12; weekday := 2 |};
     sender_upi := Some "ravi.kumar@icici";
     receiver_upi := Some "john@paytm";
     location := Some "Mumbai";
     device_id := Some "device-1" |}.

(** A detector whose model is loaded and answers [0.9] on every input. *)
Definition example_detector : FraudDetector :=
  {| model := Some {| cnn_model_loaded := true; cnn_predict := fun _ => Ok 0.9 |} |}.

(** A process whose artifact files are not there. *)
Definition example_environment : Environment :=
  {| ML_MODEL_PATH := Ok "models/fraud_cnn.h5";
     SCALER_PATH := Ok "models/scaler.pkl";
     path_exists := fun _ => false;
     cnn_load_model := fun _ _ => Raise RuntimeError |}.

Local Close Scope float_scope.

(** * The request serializer of [transactions/serializers.py]

    [TransactionCreateSerializer] checks a transfer request before the
    transaction is stored and scored: each address with [validate_upi_id],
    then the pair with [validate]. *)

(** The detail of a [serializers.ValidationError]: a message, or a
    dictionary from field names to messages. *)
Inductive detail :=
| Message (text : string)
| FieldMessages (errors : list (string * string)).

(** The outcome of a validation method: the value it returns, or the
    [ValidationError] it raises. *)
Inductive validated (A : Type) :=
| Valid (a : A)
| ValidationError (d : detail).

Arguments Valid {A} a.
Arguments ValidationError {A} d.

(** The values held by the validated data that [validate] receives: [None],
    a string, or a [Decimal] [coefficient * 10 ^ exponent] (the amount). *)
Inductive data_value :=
| DNone
| DStr (s : string)
| DDecimal (coefficient exponent : Z).

(** [a == b] on such values: strings by their characters, decimals by their
    numeric value, [None] only with [None]. *)
Definition data_eq (a b : data_value) : bool :=
  match a, b with
  | DNone, DNone => true
  | DStr x, DStr y => String.eqb x y
  | DDecimal c1 e1, DDecimal c2 e2 =>
      let e := Z.min e1 e2 in
      (c1 * 10 ^ (e1 - e) =? c2 * 10 ^ (e2 - e))%Z
  | _, _ => false
  end.

Module TransactionCreateSerializer.

(** [r'^[a-zA-Z0-9.\-_]{3,}@[a-zA-Z]{3,}$'] *)
Definition pattern : list Py.re_item :=
  [Py.Bol; Py.AtLeast 3 is_local_char; Py.Lit "@"%char; Py.AtLeast 3 is_letter; Py.Eol].

Definition suspicious_keywords : list string :=
  ["test"; "fake"; "dummy"; "fraud"; "scam"].

(** [validate_upi_id]: the address in lower case, or a [ValidationError]. *)
Definition validate_upi_id (value : option string) : validated string :=
  match value with
  | Some upi =>
      if negb (Py.truthy value) then
        ValidationError (Message "UPI ID is required.")
      else if negb (Py.re_match pattern upi) then
        ValidationError (Message
          "Invalid UPI ID format. Must be in format: username@provider (e.g., john@paytm)")
      else if existsb (fun keyword => Py.contains keyword (Py.lower upi)) suspicious_keywords
      then ValidationError (Message "UPI ID contains suspicious keywords.")
      else Valid (Py.lower upi)
  | None => ValidationError (Message "UPI ID is required.")
  end.

Definition validate_sender_upi (value : option string) : validated string :=
  validate_upi_id value.

Definition validate_receiver_upi (value : option string) : validated string :=
  validate_upi_id value.

(** [data.get(key)] *)
Definition get (data : gmap string data_value) (key : string) : data_value :=
  default DNone (data !! key).

(** [validate]: the object-level check that sender and receiver differ. *)
Definition validate (data : gmap string data_value) : validated (gmap string data_value) :=
  if data_eq (get data "sender_upi") (get data "receiver_upi") then
    ValidationError (FieldMessages
      [("receiver_upi", "Sender and receiver cannot be the same.")])
  else Valid data.

End TransactionCreateSerializer.

(** * Definitions used to state further properties *)

(** ** Sets of rules as masks

    A set of rules is given by one boolean per rule of the table; the
    [2 ^ 10] sets are listed so that a property of all of them can be
    computed. *)

Fixpoint select (mask : list bool) (rs : list rule) : list rule :=
  match mask, rs with
  | b :: mask', r :: rs' => if b then r :: select mask' rs' else select mask' rs'
  | _, _ => []
  end.

Fixpoint masks (n : nat) : list (list bool) :=
  match n with
  | O => [[]]
  | S n' => flat_map (fun mask => [true :: mask; false :: mask]) (masks n')
  end.

(** Every rule of the first set is in the second. *)
Fixpoint covered (mask1 mask2 : list bool) : bool :=
  match mask1, mask2 with
  | b1 :: mask1', b2 :: mask2' => implb b1 b2 && covered mask1' mask2'
  | _, _ => true
  end.

(** The score of a set of rules. *)
Definition score_of (mask : list bool) : float := total_weight (select mask rules).

(** The second score gives a probability at least as high as the first, and
    is flagged when the first is. *)
Definition grows (score1 score2 : float) : bool :=
  Py.le (Py.min score1 1.0) (Py.min score2 1.0) &&
  implb (Py.gt score1 0.5) (Py.gt score2 0.5).

(** An item of a pattern that does not tell a character from its lower-case
    form. *)
Definition caseless (item : Py.re_item) : Prop :=
  match item with
  | Py.Lit c => forall c', Ascii.eqb c (Py.lower_char c') = Ascii.eqb c c'
  | Py.AtLeast _ set => forall c, set (Py.lower_char c) = set c
  | _ => True
  end.

(** ** Further examples *)

(** A received transfer of 75000 at hour 2, without location. *)
Definition received_transaction : Transaction :=
  {| amount := Ok 75000%float;
     transaction_type := Some "RECEIVE";
     created_at := Some {| hour := 2; weekday := 2 |};
     sender_upi := Some "ravi.kumar@icici";
     receiver_upi := Some "john@paytm";
     location := None;
     device_id := Some "device-1" |}.

(** A transfer of 1200 at noon, with device and location, between the two
    given addresses. *)
Definition transfer_between (sender receiver : option string) : Transaction :=
  {| amount := Ok 1200%float;
     transaction_type := Some "SEND";
     created_at := Some {| hour := 12; weekday := 2 |};
     sender_upi := sender;
     receiver_upi := receiver;
     location := Some "Mumbai";
     device_id := Some "device-1" |}.

(** A process whose artifact files are there and load. *)
Definition loading_environment : Environment :=
  {| ML_MODEL_PATH := Ok "models/fraud_cnn.h5";
     SCALER_PATH := Ok "models/scaler.pkl";
     path_exists := fun _ => true;
     cnn_load_model := fun _ _ =>
       Ok {| cnn_model_loaded := true; cnn_predict := fun _ => Ok 0.9%float |} |}.

(** The validated data of a transfer request. *)
Definition example_data : gmap string data_value :=
  <["sender_upi" := DStr "ravi.kumar@icici"]>
  (<["receiver_upi" := DStr "john@paytm"]>
  (<["amount" := DDecimal 120000 (-2)]> ∅)).

(** * Proofs *)

(** A closed term replaced by its value. *)
Ltac eval_closed c :=
  let v := eval vm_compute in c in change c with v.

(** ** The runtime functions return where the detector calls them *)

(** [amount % 1000] and [amount % 10] never raise: the divisor is not zero. *)
Lemma float_rem_1000 (x : float) : exists r, Py.float_rem x 1000 = Ok r.
Proof.
  unfold Py.float_rem.
  replace (PrimFloat.eqb 1000 0) with false by (vm_compute; reflexivity).
  eauto.
Qed.

Lemma float_rem_10 (x : float) : exists r, Py.float_rem x 10 = Ok r.
Proof.
  unfold Py.float_rem.
  replace (PrimFloat.eqb 10 0) with false by (vm_compute; reflexivity).
  eauto.
Qed.

(** When [amount % 1000 == 0] the amount is finite and [int(amount)]
    returns: the remainder of an infinity or of a NaN is a NaN. *)
Lemma int_of_float_finite (x : float) r :
  Py.float_rem x 1000 = Ok r -> PrimFloat.eqb r 0 = true ->
  exists whole, Py.int_of_float x = Ok whole.
Proof.
  unfold Py.float_rem, Py.fmod, Py.int_of_float.
  replace (PrimFloat.eqb 1000 0) with false by (vm_compute; reflexivity).
  destruct (Prim2SF x) as [s|s| |s m e]; eauto.
  - intros [= <-]. vm_compute. discriminate.
  - intros [= <-]. vm_compute. discriminate.
Qed.

(** [_is_suspicious_upi] never raises: the division is guarded. *)
Lemma is_suspicious_returns (upi_id : option string) :
  exists b, _is_suspicious_upi upi_id = Ok b.
Proof.
  unfold _is_suspicious_upi.
  destruct upi_id as [upi|]; [|eauto].
  destruct (negb _); [eauto|].
  destruct (existsb _ _); [eauto|].
  destruct (0 <? _) eqn:Hlen; cbn.
  - unfold Py.int_truediv.
    destruct (_ =? 0) eqn:Hz; [lia|]. cbn.
    repeat case_match; eauto.
  - destruct (_ <? 3); eauto.
Qed.

(** ** Rounding of binary64 results

    The double operations are specified by [SpecFloat]; the lemmas below
    bound the result of a rounding whose exact value is at most a power of
    two. *)

(** The number of binary digits of a mantissa. *)
Lemma digits2_pos_bounds (m : positive) :
  2 ^ (Z.pos (digits2_pos m) - 1) <= Z.pos m < 2 ^ Z.pos (digits2_pos m).
Proof.
  induction m as [m IH|m IH|]; cbn [digits2_pos].
  - rewrite Pos2Z.inj_succ, (Pos2Z.inj_xI m).
    replace (Z.succ (Z.pos (digits2_pos m)) - 1) with (Z.succ (Z.pos (digits2_pos m) - 1)) by lia.
    rewrite !Z.pow_succ_r by lia. lia.
  - rewrite Pos2Z.inj_succ, (Pos2Z.inj_xO m).
    replace (Z.succ (Z.pos (digits2_pos m)) - 1) with (Z.succ (Z.pos (digits2_pos m) - 1)) by lia.
    rewrite !Z.pow_succ_r by lia. lia.
  - cbn. lia.
Qed.

Lemma iter_pos_nat {A} (f : A -> A) (p : positive) (x : A) :
  @SpecFloat.iter_pos A f p x = Nat.iter (Pos.to_nat p) f x.
Proof.
  revert x. induction p as [p IH|p IH|]; intros x; cbn [SpecFloat.iter_pos].
  - rewrite !IH, Pos2Nat.inj_xI, <- Nat.iter_add, <- Nat.iter_succ_r.
    f_equal. lia.
  - rewrite !IH, Pos2Nat.inj_xO, <- Nat.iter_add. f_equal. lia.
  - reflexivity.
Qed.

Lemma shr_1_spec (mrs : shr_record) :
  0 <= shr_m mrs ->
  shr_m (shr_1 mrs) = shr_m mrs / 2 /\
  shr_r (shr_1 mrs) = Z.odd (shr_m mrs) /\
  shr_s (shr_1 mrs) = shr_r mrs || shr_s mrs.
Proof.
  destruct mrs as [m r s]. cbn [shr_m shr_r shr_s]. intros Hm.
  destruct m as [|[p|p|]|p]; cbn [shr_1 shr_m shr_r shr_s]; try lia.
  - done.
  - split; [|done]. rewrite (Pos2Z.inj_xI p). apply Z.div_unique with 1; lia.
  - split; [|done]. rewrite (Pos2Z.inj_xO p). apply Z.div_unique with 0; lia.
  - done.
Qed.

(** [n] right shifts of a mantissa divide it by [2^n], and leave no
    rounding bit when the division is exact. *)
Lemma shr_iter (M : Z) (n : nat) :
  0 <= M ->
  shr_m (Nat.iter n shr_1 (Build_shr_record M false false)) = M / 2 ^ Z.of_nat n /\
  (M mod 2 ^ Z.of_nat n = 0 ->
   shr_r (Nat.iter n shr_1 (Build_shr_record M false false)) = false /\
   shr_s (Nat.iter n shr_1 (Build_shr_record M false false)) = false).
Proof.
  intros HM. induction n as [|n IH].
  - cbn. rewrite Z.div_1_r. done.
  - destruct IH as [IHm IHexact]. rewrite !Nat.iter_succ.
    set (mrs := Nat.iter n shr_1 _) in *.
    assert (Hpow : 0 < 2 ^ Z.of_nat n) by (apply Z.pow_pos_nonneg; lia).
    assert (Hm : 0 <= shr_m mrs) by (rewrite IHm; apply Z.div_pos; lia).
    destruct (shr_1_spec mrs Hm) as (Hm' & Hr' & Hs').
    rewrite Nat2Z.inj_succ, Z.pow_succ_r by lia. split.
    + rewrite Hm', IHm, Z.div_div by lia. f_equal. lia.
    + intros Hmod. rewrite Hr', Hs', IHm.
      apply Z.mod_divide in Hmod; [|lia]. destruct Hmod as [q Hq].
      assert (Hdiv : M / 2 ^ Z.of_nat n = 2 * q).
      { rewrite Hq. replace (q * (2 * 2 ^ Z.of_nat n)) with (2 * q * 2 ^ Z.of_nat n) by lia.
        apply Z.div_mul. lia. }
      assert (Hmod' : M mod 2 ^ Z.of_nat n = 0).
      { apply Z.mod_divide; [lia|]. exists (2 * q). lia. }
      destruct (IHexact Hmod') as [-> ->]. rewrite Hdiv, Z.odd_mul. done.
Qed.

(** The shift that brings a mantissa to its canonical exponent. *)
Lemma shr_fexp_spec (m e : Z) :
  0 <= m ->
  let n := Z.max 0 (fexp prec emax (Zdigits2 m + e) - e) in
  exists mrs,
    shr_fexp prec emax m e loc_Exact = (mrs, e + n) /\
    shr_m mrs = m / 2 ^ n /\
    (m mod 2 ^ n = 0 -> loc_of_shr_record mrs = loc_Exact).
Proof.
  intros Hm n. unfold shr_fexp, shr. cbn [shr_record_of_loc].
  subst n. destruct (fexp prec emax (Zdigits2 m + e) - e) as [|p|p] eqn:Hshift.
  - eexists. split; [f_equal; lia|]. cbn. rewrite Z.div_1_r. done.
  - rewrite iter_pos_nat. destruct (shr_iter m (Pos.to_nat p) Hm) as [Hval Hexact].
    rewrite positive_nat_Z in Hval, Hexact.
    eexists. split; [reflexivity|]. rewrite Z.max_r by lia. split; [done|].
    intros Hmod. destruct (Hexact Hmod) as [Hr Hs].
    destruct (Nat.iter _ _ _) as [m' r s]. cbn in Hr, Hs. by subst.
  - eexists. split; [f_equal; lia|]. cbn. rewrite Z.div_1_r. done.
Qed.

Lemma round_nearest_even_bounds (m : Z) (l : SpecFloat.location) :
  m <= round_nearest_even m l <= m + 1 /\
  (l = loc_Exact -> round_nearest_even m l = m).
Proof.
  destruct l as [|[| |]]; cbn; try destruct (Z.even m); split; try done; lia.
Qed.

Lemma Zdigits2_bounds (M : Z) :
  0 < M -> 2 ^ (Zdigits2 M - 1) <= M < 2 ^ Zdigits2 M.
Proof.
  destruct M as [|p|p]; try lia. intros _. apply digits2_pos_bounds.
Qed.

Lemma fexp_le (M E k : Z) :
  0 < M -> E <= k -> -1074 <= k -> M <= 2 ^ (k - E) ->
  fexp prec emax (Zdigits2 M + E) <= k.
Proof.
  intros HM HE Hk Hle. destruct (Zdigits2_bounds M HM) as [Hlow _].
  assert (Hd : Zdigits2 M - 1 <= k - E).
  { apply (Z.pow_le_mono_r_iff 2); lia. }
  unfold fexp, SpecFloat.emin, prec, emax. lia.
Qed.

Lemma div_pow_le (M n j : Z) :
  0 <= M -> 0 <= n -> 0 <= j -> M <= 2 ^ (j + n) ->
  M / 2 ^ n <= 2 ^ j /\ (M / 2 ^ n = 2 ^ j -> M mod 2 ^ n = 0).
Proof.
  intros HM Hn Hj Hle. rewrite Z.pow_add_r in Hle by lia.
  assert (Hpow : 0 < 2 ^ n) by (apply Z.pow_pos_nonneg; lia).
  split.
  - rewrite <- (Z.div_mul (2 ^ j) (2 ^ n)) by lia. apply Z.div_le_mono; lia.
  - intros Heq. pose proof (Z.mul_div_le M (2 ^ n) Hpow) as Hdown.
    rewrite Heq in Hdown. assert (M = 2 ^ j * 2 ^ n) as -> by lia.
    apply Z.mod_mul. lia.
Qed.

(** Rounding to nearest does not cross a power of two: a value
    [M * 2^E <= 2^k] rounds to zero or to a double [m * 2^e <= 2^k]. *)
Lemma binary_round_aux_le (s : bool) (M E k : Z) :
  0 < M -> E <= k -> -1074 <= k <= 971 -> M <= 2 ^ (k - E) ->
  binary_round_aux prec emax s M E loc_Exact = S754_zero s \/
  exists m e, binary_round_aux prec emax s M E loc_Exact = S754_finite s m e /\
              e <= k /\ Z.pos m <= 2 ^ (k - e).
Proof.
  intros HM HE Hk Hle. unfold binary_round_aux.
  destruct (shr_fexp_spec M E) as (mrs1 & -> & Hm1 & Hex1); [lia|].
  assert (Hf1 : fexp prec emax (Zdigits2 M + E) <= k) by (apply fexp_le; lia).
  set (n1 := Z.max 0 (fexp prec emax (Zdigits2 M + E) - E)) in *.
  set (e1 := E + n1).
  assert (He1 : e1 <= k) by (unfold e1, n1; lia).
  destruct (div_pow_le M n1 (k - e1)) as [Hdiv Hexact]; try (unfold e1, n1 in *; lia).
  { replace (k - e1 + n1) with (k - E) by (unfold e1; lia). done. }
  destruct (round_nearest_even_bounds (shr_m mrs1) (loc_of_shr_record mrs1))
    as [[Hr_low Hr_up] Hr_exact].
  set (r1 := round_nearest_even (shr_m mrs1) (loc_of_shr_record mrs1)) in *.
  assert (Hm1_nonneg : 0 <= shr_m mrs1).
  { rewrite Hm1. apply Z.div_pos; [lia|]. apply Z.pow_pos_nonneg; unfold n1; lia. }
  assert (Hr1 : 0 <= r1 <= 2 ^ (k - e1)).
  { split; [lia|]. destruct (Z.eq_dec (shr_m mrs1) (2 ^ (k - e1))) as [Heq|Hne].
    - rewrite Hr_exact; [lia|]. apply Hex1, Hexact. by rewrite <- Hm1.
    - rewrite Hm1 in Hne. lia. }
  destruct (shr_fexp_spec r1 e1) as (mrs2 & -> & Hm2 & _); [lia|].
  destruct (Z.eq_dec r1 0) as [Hzero|Hpos].
  { left. rewrite Hm2, Hzero, Z.div_0_l; [done|].
    apply Z.pow_nonzero; lia. }
  assert (Hf2 : fexp prec emax (Zdigits2 r1 + e1) <= k) by (apply fexp_le; lia).
  set (n2 := Z.max 0 (fexp prec emax (Zdigits2 r1 + e1) - e1)) in *.
  assert (Hn2 : 0 <= n2 /\ e1 + n2 <= k) by (unfold n2; lia).
  assert (Hdiv2 : r1 / 2 ^ n2 <= 2 ^ (k - (e1 + n2))).
  { apply div_pow_le; try lia.
    replace (k - (e1 + n2) + n2) with (k - e1) by lia. lia. }
  rewrite <- Hm2 in Hdiv2.
  assert (Hm2_nonneg : 0 <= shr_m mrs2).
  { rewrite Hm2. apply Z.div_pos; [lia|]. apply Z.pow_pos_nonneg; unfold n2; lia. }
  destruct (shr_m mrs2) as [|m2|m2]; [by left| |lia].
  right. exists m2, (e1 + n2).
  replace (e1 + n2 <=? emax - prec) with true
    by (symmetry; apply Z.leb_le; unfold emax, prec; lia).
  split; [done|]. split; [lia|done].
Qed.

Lemma iter_xO (m d : positive) : Z.pos (Pos.iter xO m d) = Z.pos m * 2 ^ Z.pos d.
Proof.
  induction d as [|d IH] using Pos.peano_ind.
  - cbn [Pos.iter]. rewrite (Pos2Z.inj_xO m). lia.
  - rewrite Pos.iter_succ, (Pos2Z.inj_xO (Pos.iter xO m d)), IH, Pos2Z.inj_succ,
      Z.pow_succ_r by lia. lia.
Qed.

Lemma shl_align_spec (m : positive) (e e' : Z) :
  snd (shl_align m e e') = Z.min e e' /\
  Z.pos (fst (shl_align m e e')) = Z.pos m * 2 ^ (e - Z.min e e').
Proof.
  unfold shl_align. destruct (e' - e) as [|d|d] eqn:Hd; cbn [fst snd].
  - rewrite Z.min_l by lia. rewrite Z.sub_diag. lia.
  - rewrite Z.min_l by lia. rewrite Z.sub_diag. lia.
  - rewrite Z.min_r by lia. split; [done|]. rewrite iter_xO. f_equal. f_equal. lia.
Qed.

Lemma binary_round_le (s : bool) (m : positive) (e k : Z) :
  e <= k -> -1074 <= k <= 971 -> Z.pos m <= 2 ^ (k - e) ->
  binary_round prec emax s m e = S754_zero s \/
  exists m' e', binary_round prec emax s m e = S754_finite s m' e' /\
                e' <= k /\ Z.pos m' <= 2 ^ (k - e').
Proof.
  intros He Hk Hle. unfold binary_round.
  destruct (shl_align_spec m e (fexp prec emax (Z.pos (digits2_pos m) + e))) as [Hez Hmz].
  destruct (shl_align m e _) as [mz ez]. cbn [fst snd] in Hez, Hmz.
  rewrite <- Hez in Hmz.
  assert (Hbound : Z.pos mz <= 2 ^ (k - ez)).
  { rewrite Hmz. replace (k - ez) with ((k - e) + (e - ez)) by lia.
    rewrite Z.pow_add_r by lia. apply Z.mul_le_mono_nonneg_r; [|done].
    apply Z.pow_nonneg. lia. }
  apply binary_round_aux_le; lia.
Qed.

Lemma binary_normalize_within (D e k : Z) :
  e <= k -> -1074 <= k <= 971 -> Z.abs D <= 2 ^ (k - e) ->
  within k (binary_normalize prec emax D e false).
Proof.
  intros He Hk Hle. unfold binary_normalize. destruct D as [|p|p]; [done| |].
  - destruct (binary_round_le false p e k) as [->|(m' & e' & -> & H)]; done.
  - destruct (binary_round_le true p e k) as [->|(m' & e' & -> & H)]; done.
Qed.


(** A positive double that is at most 1. *)
Lemma unit_interval_mantissa (m : positive) (e : Z) :
  valid_binary (S754_finite false m e) = true ->
  SFleb (S754_finite false m e) (Prim2SF 1) = true ->
  Z.pos m <= 2 ^ (- e) /\ -1074 <= e <= -52.
Proof.
  eval_closed (Prim2SF 1). intros Hvalid H1.
  unfold SFleb, SFcompare in H1.
  cbn [valid_binary] in Hvalid. unfold bounded, canonical_mantissa in Hvalid.
  apply andb_true_iff in Hvalid as [Hcanon _]. apply Z.eqb_eq in Hcanon.
  pose proof (digits2_pos_bounds m) as [_ Hup].
  unfold fexp, SpecFloat.emin, prec, emax in Hcanon.
  assert (Hdigits : Z.pos (digits2_pos m) <= 53) by lia.
  assert (Hm53 : Z.pos m < 2 ^ 53).
  { eapply Z.lt_le_trans; [exact Hup|]. apply Z.pow_le_mono_r; lia. }
  rewrite (Pos.compare_cont_spec m _ Eq) in H1. cbn [Pos.switch_Eq] in H1.
  destruct (Z.compare_spec e (-52)) as [->|Hlt|Hgt]; [| |done].
  - split; [|lia]. change (2 ^ (- -52)) with (Z.pos 4503599627370496).
    rewrite Pos2Z.inj_compare in H1.
    destruct (Z.compare_spec (Z.pos m) (Z.pos 4503599627370496)) as [Heq|Hlt|Hgt];
      [lia|lia|done].
  - split; [|lia]. etrans; [apply Z.lt_le_incl, Hm53|].
    apply Z.pow_le_mono_r; lia.
Qed.

(** [p - 0.5] for a double [p] between 0 and 1 is at most 0.5 in magnitude. *)
Lemma sub_half_within (x : spec_float) :
  valid_binary x = true ->
  SFleb (Prim2SF 0) x = true -> SFleb x (Prim2SF 1) = true ->
  within (-1) (SF64sub x (Prim2SF 0.5)).
Proof.
  intros Hvalid H0 H1.
  destruct x as [s|s| |s m e].
  - eval_closed (Prim2SF 0.5). unfold SF64sub, SFsub, within. split; [lia|apply Z.le_refl].
  - revert H0 H1. eval_closed (Prim2SF 0). eval_closed (Prim2SF 1). by destruct s.
  - done.
  - destruct s; [revert H0; eval_closed (Prim2SF 0); done|].
    destruct (unit_interval_mantissa m e Hvalid H1) as [Hm He].
    eval_closed (Prim2SF 0.5).
    unfold SF64sub, SFsub. cbn [cond_Zopp].
    destruct (shl_align_spec m e (Z.min e (-53))) as [_ HA].
    destruct (shl_align_spec 4503599627370496 (-53) (Z.min e (-53))) as [_ HH].
    rewrite HA, HH.
    replace (Z.min e (Z.min e (-53))) with (Z.min e (-53)) by lia.
    replace (Z.min (-53) (Z.min e (-53))) with (Z.min e (-53)) by lia.
    set (ez := Z.min e (-53)).
    apply binary_normalize_within; [lia|lia|].
    change (Z.pos 4503599627370496) with (2 ^ 52).
    rewrite <- Z.pow_add_r by lia.
    replace (52 + (-53 - ez)) with (-1 - ez) by lia.
    assert (HApos : 0 < Z.pos m * 2 ^ (e - ez)).
    { apply Z.mul_pos_pos; [lia|]. apply Z.pow_pos_nonneg; lia. }
    assert (HAle : Z.pos m * 2 ^ (e - ez) <= 2 * 2 ^ (-1 - ez)).
    { rewrite <- Z.pow_succ_r by lia. replace (Z.succ (-1 - ez)) with (- e + (e - ez)) by lia.
      rewrite Z.pow_add_r by lia. apply Z.mul_le_mono_nonneg_r; [|done].
      apply Z.pow_nonneg. lia. }
    assert (0 < 2 ^ (-1 - ez)) by (apply Z.pow_pos_nonneg; lia).
    lia.
Qed.

(** Twice the magnitude of a double of magnitude at most 0.5. *)
Lemma double_abs_within (y : spec_float) :
  within (-1) y -> in_unit_interval (SF64mul (SFabs y) (Prim2SF 2)).
Proof.
  eval_closed (Prim2SF 2). destruct y as [s|s| |s m e]; try done.
  - intros _. by left.
  - intros [He Hm]. unfold SF64mul, SFabs, SFmul. cbn [xorb].
    apply binary_round_aux_le; try lia.
    rewrite Pos2Z.inj_mul. change (Z.pos 4503599627370496) with (2 ^ 52).
    replace (0 - (e + -51)) with ((-1 - e) + 52) by lia.
    rewrite Z.pow_add_r by lia. apply Z.mul_le_mono_nonneg_r; [|done].
    apply Z.pow_nonneg. lia.
Qed.

Lemma unit_interval_compare (r : spec_float) :
  valid_binary r = true -> in_unit_interval r ->
  SFleb (Prim2SF 0) r = true /\ SFleb r (Prim2SF 1) = true.
Proof.
  eval_closed (Prim2SF 0). eval_closed (Prim2SF 1).
  intros Hvalid [->|(m & e & -> & He & Hm)]; [done|].
  split; [done|].
  cbn [valid_binary] in Hvalid. unfold bounded, canonical_mantissa in Hvalid.
  apply andb_true_iff in Hvalid as [Hcanon _]. apply Z.eqb_eq in Hcanon.
  pose proof (digits2_pos_bounds m) as [Hlow _].
  unfold fexp, SpecFloat.emin, prec, emax in Hcanon.
  unfold SFleb, SFcompare.
  rewrite (Pos.compare_cont_spec m _ Eq). cbn [Pos.switch_Eq].
  rewrite Pos2Z.inj_compare.
  destruct (Z.compare_spec e (-52)) as [->|Hlt|Hgt]; [|done|].
  - change (2 ^ (0 - -52)) with (Z.pos 4503599627370496) in Hm.
    destruct (Z.compare_spec (Z.pos m) (Z.pos 4503599627370496)); [done|done|lia].
  - exfalso.
    assert (Hdigits : Z.pos (digits2_pos m) = 53) by lia.
    rewrite Hdigits in Hlow. change (2 ^ (53 - 1)) with (2 * 2 ^ 51) in Hlow.
    assert (2 ^ (0 - e) <= 2 ^ 51) by (apply Z.pow_le_mono_r; lia).
    assert (0 < 2 ^ 51) by done. lia.
Qed.

(** [abs(p - 0.5) * 2] lies between 0 and 1 for every double [p] between 0
    and 1. *)
Lemma confidence_in_unit_interval (p : float) :
  PrimFloat.leb 0 p = true -> PrimFloat.leb p 1 = true ->
  PrimFloat.leb 0 (abs (p - 0.5) * 2) = true /\
  PrimFloat.leb (abs (p - 0.5) * 2) 1 = true.
Proof.
  rewrite !leb_spec. intros H0 H1.
  apply unit_interval_compare; [apply Prim2SF_valid|].
  rewrite mul_spec, abs_spec, sub_spec.
  apply double_abs_within, sub_half_within; [apply Prim2SF_valid|done|done].
Qed.

(** ** The scorer computes what its table says *)

(** The body of [rule_based_detection] is walked one statement at a time.
    A [let] is opened only after its value has been rewritten into the
    table's form and generalised, so that the running state stays a variable
    and the term does not grow. *)

(** Opens the [let] at the head of the left-hand side. *)
Ltac open_let :=
  lazymatch goal with
  | |- (let x := ?V in @?B x) = ?R => change (B V = R); cbv beta
  end.

(** Runs the binds whose argument is already a value. *)
Ltac run_bind := lazy beta iota delta [mbind result_bind attr].

(** The [let] at the head binds the next state: its value is [new], the
    table's entry applied to the state [st]; [tac] proves it. *)
Ltac pure_step st new tac :=
  lazymatch goal with
  | |- (let x := ?V in @?B x) = ?R =>
      change (B V = R); replace V with new by tac;
      generalize new; clear st; intro st; cbv beta
  end.

(** The same for a state bound by a statement that may raise. *)
Ltac bind_step st new tac :=
  lazymatch goal with
  | |- match ?M with Ok _ => _ | Raise _ => _ end = _ =>
      replace M with (Ok new) by tac; lazy beta iota;
      generalize new; clear st; intro st
  end.

Ltac table_entry := unfold apply_rule; cbn [triggered weight reason_texts].

(** The function is the fold of [apply_rule] over the rules, from the state
    [(0.0, [])], on every record whose amount and timestamp can be read. *)
Lemma rule_based_detection_table now t :
  rule_based_detection now t =
    (a ← amount t; d ← attr (created_at t);
     Ok (rule_based_verdict now (fold_left (apply_rule a d t) rules (0.0%float, [])))).
Proof.
  lazy delta [rule_based_detection]. lazy beta.
  destruct (amount t) as [a|e]; [|reflexivity].
  destruct (created_at t) as [d|]; [|reflexivity].
  open_let. run_bind. lazy delta [rules].
  generalize (0.0%float, @nil string). intros st.
  lazy beta iota delta [fold_left].
  destruct (float_rem_1000 a) as [r1 Hr1].
  destruct (float_rem_10 a) as [r2 Hr2].
  destruct (is_suspicious_returns (sender_upi t)) as [bs Hbs].
  destruct (is_suspicious_returns (receiver_upi t)) as [br Hbr].
  (* Rule 1 *)
  pure_step st (apply_rule a d t (apply_rule a d t st HighAmount) ExtremelyHighAmount)
    ltac:(table_entry; destruct (Py.gt a 50000), (Py.gt a 100000); reflexivity).
  (* Rule 2 *)
  open_let.
  pure_step st (apply_rule a d t st OddHours) ltac:(table_entry; reflexivity).
  (* Rule 3 *)
  rewrite Hr1. lazy beta iota.
  bind_step st (apply_rule a d t st RoundAmount)
    ltac:(table_entry; unfold round_amount, whole_part; rewrite Hr1;
          cbn [mbind result_bind holds];
          destruct (_ && _) eqn:Hround; [|reflexivity];
          apply andb_true_iff in Hround as [Hzero _];
          destruct (int_of_float_finite a r1 Hr1 Hzero) as [whole ->]; reflexivity).
  (* Rules 4 and 5 *)
  pure_step st (apply_rule a d t st MissingContext) ltac:(table_entry; reflexivity).
  pure_step st (apply_rule a d t st SelfTransfer) ltac:(table_entry; reflexivity).
  (* Rule 6 *)
  open_let. open_let.
  pure_step st (apply_rule a d t st InvalidAddress)
    ltac:(table_entry; unfold add_score, append_reason;
          destruct (_validate_upi_format (sender_upi t)),
                   (_validate_upi_format (receiver_upi t));
          cbn; rewrite <- ?app_assoc; reflexivity).
  (* Rule 7 *)
  rewrite Hbs. lazy beta iota.
  replace (if bs then Ok true else _is_suspicious_upi (receiver_upi t))
    with (Ok (A := bool) (bs || br)) by (rewrite Hbr; destruct bs; reflexivity).
  lazy beta iota.
  pure_step st (apply_rule a d t st SuspiciousAddress)
    ltac:(table_entry; unfold suspicious_pair; rewrite Hbs, Hbr;
          destruct bs; reflexivity).
  (* Rule 8 *)
  pure_step st (apply_rule a d t st SmallAmount) ltac:(table_entry; reflexivity).
  (* Rule 9 *)
  rewrite Hr2. lazy beta iota.
  replace (if Py.gt a 1000 then Ok (negb (PrimFloat.eqb r2 0)) else Ok false)
    with (Ok (A := bool) (Py.gt a 1000 && negb (PrimFloat.eqb r2 0)))
    by (destruct (Py.gt a 1000); reflexivity).
  lazy beta iota.
  pure_step st (apply_rule a d t st UnusualPrecision)
    ltac:(table_entry; unfold unusual_precision; rewrite Hr2;
          destruct (Py.gt a 1000); cbn [mbind result_bind holds andb];
          [destruct (negb (PrimFloat.eqb r2 0))|]; reflexivity).
  reflexivity.
Qed.

Section Table.

Variables (amount : float) (created : datetime) (transaction : Transaction).

Let trig := triggered amount created transaction.
Let texts := reason_texts amount created transaction.

(** Folding the rules adds the weights of the rules that fire and appends
    their texts, in the order of the list. *)
Lemma apply_rules_fired (rs : list rule) (st : score_state) :
  fold_left (apply_rule amount created transaction) rs st =
    (fold_left (fun score r => (score + weight r)%float) (List.filter trig rs) (fst st),
     snd st ++ concat (map texts (List.filter trig rs))).
Proof.
  revert st. induction rs as [|r rs IH]; intros [score reasons].
  - cbn. by rewrite app_nil_r.
  - cbn [fold_left List.filter]. rewrite IH. unfold apply_rule. fold (trig r).
    destruct (trig r); cbn; [|reflexivity].
    by rewrite app_assoc.
Qed.

(** A rule that fires reports at least one reason. *)
Lemma reason_texts_nonempty (r : rule) : trig r = true -> texts r <> [].
Proof.
  unfold trig, texts. destruct r; cbn [triggered reason_texts]; try discriminate.
  destruct (_validate_upi_format (sender_upi transaction)),
    (_validate_upi_format (receiver_upi transaction)); cbn; discriminate.
Qed.

Lemma reasons_nil_iff :
  concat (map texts (fired amount created transaction)) = []
  <-> fired amount created transaction = [].
Proof.
  split; [|by intros ->].
  unfold fired. fold trig. destruct (List.filter trig rules) as [|r rs] eqn:Hf; [done|].
  assert (Hr : trig r = true).
  { apply (proj1 (filter_In trig r rules)). rewrite Hf. by left. }
  cbn. intros H. apply app_eq_nil in H as [H _].
  by apply reason_texts_nonempty in Hr.
Qed.

(** The rules that fire are taken from the table in its order. *)
Lemma fired_sublist : sublist (fired amount created transaction) rules.
Proof.
  unfold fired. fold trig. induction rules as [|r rs IH]; cbn; [constructor|].
  destruct (trig r); by constructor.
Qed.

(** The [elif] of the first rule can never be taken: an amount above 100000
    is above 50000, and the [if] has then been taken. *)
Lemma gt_100000_gt_50000 : Py.gt amount 100000 = true -> Py.gt amount 50000 = true.
Proof.
  unfold Py.gt. rewrite !ltb_spec.
  eval_closed (Prim2SF 100000). eval_closed (Prim2SF 50000).
  unfold SFltb, SFcompare.
  destruct (Prim2SF amount) as [s|s| |s m e]; try done.
  destruct s; [done|].
  destruct (Z.compare_spec (-36) e), (Z.compare_spec (-37) e); try done; lia.
Qed.

Lemma extremely_high_unreachable : trig ExtremelyHighAmount = false.
Proof.
  unfold trig. cbn [triggered].
  destruct (Py.gt amount 100000) eqn:H; [|apply andb_false_r].
  by rewrite (gt_100000_gt_50000 H).
Qed.

End Table.

(** What the scorer returns, in terms of the rules that fire. *)
Lemma rule_based_detection_fired now t a d :
  amount t = Ok a -> created_at t = Some d ->
  rule_based_detection now t =
    Ok (rule_based_verdict now
          (total_weight (fired a d t),
           concat (map (reason_texts a d t) (fired a d t)))).
Proof.
  intros Ha Hd. rewrite rule_based_detection_table, Ha, Hd. cbn [mbind result_bind attr].
  by rewrite apply_rules_fired.
Qed.

(** The scorer returns only when the amount and the timestamp can be read. *)
Lemma rule_based_detection_inv now t v :
  rule_based_detection now t = Ok v ->
  exists a d, amount t = Ok a /\ created_at t = Some d.
Proof.
  rewrite rule_based_detection_table.
  destruct (amount t) as [a|]; [|discriminate].
  destruct (created_at t) as [d|]; [|discriminate]. eauto.
Qed.

Lemma rule_based_detection_returns now t a d :
  amount t = Ok a -> created_at t = Some d -> returns (rule_based_detection now t).
Proof. intros Ha Hd. rewrite (rule_based_detection_fired now t a d Ha Hd). by eexists. Qed.

(** The keys of a rule-based verdict. *)
Lemma lookup_rule_based now st :
  rule_based_verdict now st !! "is_fraud" = Some (VBool (Py.gt (fst st) 0.5)) /\
  rule_based_verdict now st !! "fraud_probability" = Some (VFloat (Py.min (fst st) 1.0)) /\
  rule_based_verdict now st !! "detection_method" = Some (VStr "rule_based") /\
  rule_based_verdict now st !! "reasons" = Some (VList (snd st)) /\
  rule_based_verdict now st !! "timestamp" = Some (VStr now) /\
  rule_based_verdict now st !! "confidence" = None.
Proof. repeat split; reflexivity. Qed.

Lemma rule_based_method now t v :
  rule_based_detection now t = Ok v -> v !! "detection_method" = Some (VStr "rule_based").
Proof.
  intros Hv. destruct (rule_based_detection_inv _ _ _ Hv) as (a & d & Ha & Hd).
  rewrite (rule_based_detection_fired now t a d Ha Hd) in Hv. by injection Hv as <-.
Qed.

(** Whatever subset of the rules fires, the binary64 sum of their weights,
    clamped, lies between 0 and 1; clamping does not change the comparison
    with 0.5; and the sum is positive as soon as one rule fires.  There are
    1024 subsets and each is computed. *)
Lemma weights_bounds (f : rule -> bool) :
  let total := total_weight (List.filter f rules) in
  Py.le 0 (Py.min total 1.0) = true /\
  Py.le (Py.min total 1.0) 1 = true /\
  Py.gt (Py.min total 1.0) 0.5 = Py.gt total 0.5 /\
  Py.gt (Py.min total 1.0) 0 = negb (forallb (fun r => negb (f r)) rules).
Proof.
  unfold rules. cbn [List.filter forallb].
  destruct (f HighAmount), (f ExtremelyHighAmount), (f OddHours), (f RoundAmount),
    (f MissingContext), (f SelfTransfer), (f InvalidAddress), (f SuspiciousAddress),
    (f SmallAmount), (f UnusualPrecision); vm_compute; auto.
Qed.

Lemma filter_nil_forallb {A} (f : A -> bool) (l : list A) :
  List.filter f l = [] <-> forallb (fun x => negb (f x)) l = true.
Proof.
  induction l as [|x l IH]; cbn; [done|].
  destruct (f x); cbn; [split; discriminate|exact IH].
Qed.

Lemma filter_cons_true {A} (f : A -> bool) x l :
  f x = true -> List.filter f (x :: l) = x :: List.filter f l.
Proof. intros H. cbn. by rewrite H. Qed.

Lemma filter_cons_false {A} (f : A -> bool) x l :
  f x = false -> List.filter f (x :: l) = List.filter f l.
Proof. intros H. cbn. by rewrite H. Qed.

(** The text of the extremely-high-amount rule is in no verdict. *)
Lemma extremely_high_never_reported now t v reasons :
  rule_based_detection now t = Ok v -> v !! "reasons" = Some (VList reasons) ->
  ~ In "Extremely high amount (>₹1,00,000)" reasons.
Proof.
  intros Hv Hr. destruct (rule_based_detection_inv _ _ _ Hv) as (a & d & Ha & Hd).
  rewrite (rule_based_detection_fired now t a d Ha Hd) in Hv. injection Hv as <-.
  destruct (lookup_rule_based now (total_weight (fired a d t),
     concat (map (reason_texts a d t) (fired a d t)))) as (_ & _ & _ & Hreasons & _).
  rewrite Hreasons in Hr. injection Hr as <-. cbn [snd].
  intros Hin. apply in_concat in Hin as (texts & Htexts & Hin).
  apply in_map_iff in Htexts as (r & <- & Hr).
  apply filter_In in Hr as [_ Hr].
  destruct r; cbn [reason_texts] in Hin.
  2: by rewrite extremely_high_unreachable in Hr.
  all: repeat case_match; cbn in Hin; intuition discriminate.
Qed.

(** ** Strings and the address pattern *)

Lemma append_nil_l (s : string) : EmptyString +:+ s = s.
Proof. reflexivity. Qed.

Lemma append_cons (c : ascii) (a b : string) : String c a +:+ b = String c (a +:+ b).
Proof. reflexivity. Qed.

Lemma append_nil_r (s : string) : s +:+ EmptyString = s.
Proof. induction s as [|c s IH]; [done|]. by rewrite append_cons, IH. Qed.

Lemma append_assoc (a b c : string) : (a +:+ b) +:+ c = a +:+ (b +:+ c).
Proof. induction a as [|x a IH]; [done|]. by rewrite !append_cons, IH. Qed.

Lemma length_append (a b : string) :
  String.length (a +:+ b) = (String.length a + String.length b)%nat.
Proof. induction a as [|x a IH]; [done|]. rewrite append_cons. cbn. by rewrite IH. Qed.

Lemma all_chars_cons set c u : all_chars set (String c u) = set c && all_chars set u.
Proof. reflexivity. Qed.

Section Repetition.

Variables (n : nat) (set : ascii -> bool) (rest : bool -> string -> bool).

(** A repetition matches when the string starts with a run of characters of
    the set, long enough with the [k] already taken, after which [rest]
    matches. *)
Lemma run_spec (k : nat) (start : bool) (s : string) :
  Py.run n set rest k start s = true <->
  exists u s', s = u +:+ s' /\ all_chars set u = true /\
    (n <= k + String.length u)%nat /\ rest (start_after u start) s' = true.
Proof.
  revert k start. induction s as [|c s IH]; intros k start; cbn [Py.run].
  - rewrite andb_true_iff, Nat.leb_le. split.
    + intros [Hk Hrest]. exists EmptyString, EmptyString. cbn. rewrite Nat.add_0_r. done.
    + intros (u & s' & Hs & _ & Hk & Hrest).
      destruct u; [|discriminate]. rewrite append_nil_l in Hs. subst s'.
      cbn in Hk, Hrest. rewrite Nat.add_0_r in Hk. done.
  - rewrite orb_true_iff, !andb_true_iff, Nat.leb_le, IH. split.
    + intros [[Hc (u & s' & -> & Hu & Hk & Hrest)]|[Hk Hrest]].
      * exists (String c u), s'. rewrite all_chars_cons, Hc, Hu. cbn [String.length].
        repeat split; [lia|]. by destruct u.
      * exists EmptyString, (String c s). cbn. rewrite Nat.add_0_r. done.
    + intros (u & s' & Hs & Hu & Hk & Hrest). destruct u as [|c' u].
      * right. rewrite append_nil_l in Hs. subst s'. cbn in Hk, Hrest.
        rewrite Nat.add_0_r in Hk. done.
      * left. rewrite append_cons in Hs. injection Hs as <- ->.
        rewrite all_chars_cons in Hu.
        apply andb_true_iff in Hu as [Hc Hu]. split; [done|].
        exists u, s'. cbn in Hk. repeat split; [done|lia|]. by destruct u.
Qed.

End Repetition.

Lemma at_end_spec s : Py.at_end s = true <-> s = EmptyString \/ s = newline_string.
Proof.
  destruct s as [|c [|c' s]]; cbn.
  - intuition.
  - unfold newline_string. rewrite Ascii.eqb_eq. split.
    + intros ->. by right.
    + intros [|[=]]; done.
  - split; [done|]. intros [|]; discriminate.
Qed.

(** The strings the validator accepts: those with the address syntax, and
    those followed by one newline. *)
Lemma validate_spec (s : string) :
  _validate_upi_format (Some s) = true <->
  address_syntax s \/ exists s', s = s' +:+ newline_string /\ address_syntax s'.
Proof.
  unfold _validate_upi_format, Py.re_match, upi_pattern.
  cbn [Py.match_here andb].
  transitivity (Py.run 3 is_local_char
      (fun start s => match s with
                      | String c' s' => Ascii.eqb "@" c' &&
                          Py.run 3 is_letter (fun start s => Py.at_end s && true) 0 false s'
                      | EmptyString => false
                      end) 0 true s = true).
  { destruct s; cbn [Py.truthy negb]; [|done]. cbn. done. }
  rewrite run_spec. unfold address_syntax. split.
  - intros (u & s' & -> & Hu & Hlen & Hrest).
    destruct s' as [|c s']; [done|].
    apply andb_true_iff in Hrest as [Hc Hrest]. apply Ascii.eqb_eq in Hc as <-.
    apply run_spec in Hrest as (p & r & -> & Hp & Hplen & Hend).
    rewrite andb_true_r in Hend. apply at_end_spec in Hend as [->| ->].
    + left. exists u, p. rewrite append_nil_r.
      split; [done|]. split; [cbn in Hlen; lia|]. split; [done|]. split; [cbn in Hplen; lia|done].
    + right. exists (u +:+ "@" +:+ p). split.
      * by rewrite !append_assoc.
      * exists u, p.
        split; [done|]. split; [cbn in Hlen; lia|]. split; [done|]. split; [cbn in Hplen; lia|done].
  - intros [(u & p & -> & Hlen & Hu & Hplen & Hp)|(s' & -> & u & p & -> & Hlen & Hu & Hplen & Hp)].
    + exists u, ("@" +:+ p). split; [done|]. split; [done|]. split; [cbn; lia|].
      rewrite append_cons, append_nil_l, Ascii.eqb_refl. cbn [andb].
      apply run_spec. exists p, EmptyString. rewrite append_nil_r.
      split; [done|]. split; [done|]. split; [cbn; lia|]. by destruct p.
    + exists u, ("@" +:+ p +:+ newline_string). rewrite !append_assoc.
      split; [done|]. split; [done|]. split; [cbn; lia|].
      rewrite append_cons, append_nil_l, Ascii.eqb_refl. cbn [andb].
      apply run_spec. exists p, newline_string.
      split; [done|]. split; [done|]. split; [cbn; lia|]. by destruct p.
Qed.

Lemma all_chars_append set (a b : string) :
  all_chars set (a +:+ b) = all_chars set a && all_chars set b.
Proof.
  induction a as [|c a IH]; [done|].
  by rewrite append_cons, !all_chars_cons, IH, andb_assoc.
Qed.

Lemma all_chars_impl (set1 set2 : ascii -> bool) (s : string) :
  (forall c, set1 c = true -> set2 c = true) ->
  all_chars set1 s = true -> all_chars set2 s = true.
Proof.
  intros Himpl. induction s as [|c s IH]; [done|].
  rewrite !all_chars_cons, !andb_true_iff. intros [Hc Hs]. auto.
Qed.

Lemma is_letter_not_newline c : is_letter c = true -> not_newline c = true.
Proof.
  unfold is_letter, not_newline, Py.is_ascii_lower, Py.is_ascii_upper, Py.code.
  destruct (Ascii.eqb_spec c Py.newline) as [->|]; [|done]. vm_compute. done.
Qed.

Lemma is_local_char_not_newline c : is_local_char c = true -> not_newline c = true.
Proof.
  unfold is_local_char, is_letter, not_newline, Py.isdigit, Py.is_ascii_lower,
    Py.is_ascii_upper, Py.code.
  destruct (Ascii.eqb_spec c Py.newline) as [->|]; [|done]. vm_compute. done.
Qed.

Lemma address_syntax_no_newline s : address_syntax s -> all_chars not_newline s = true.
Proof.
  intros (u & p & -> & _ & Hu & _ & Hp).
  rewrite !all_chars_append, !andb_true_iff. repeat split.
  - by apply (all_chars_impl is_local_char), Hu; apply is_local_char_not_newline.
  - by apply (all_chars_impl is_letter), Hp; apply is_letter_not_newline.
Qed.

(** No string that ends in a newline has the address syntax. *)
Lemma newline_refused_by_syntax s : ~ address_syntax (s +:+ newline_string).
Proof.
  intros H. apply address_syntax_no_newline in H.
  rewrite all_chars_append, andb_true_iff in H. destruct H as [_ H]. discriminate.
Qed.

(** The examples of the specification. *)
Lemma validate_examples :
  _validate_upi_format (Some "john@paytm") = true /\
  _validate_upi_format (Some "jo@paytm") = false /\
  _validate_upi_format (Some "john@pt") = false /\
  _validate_upi_format (Some EmptyString) = false /\
  _validate_upi_format None = false.
Proof. repeat split; reflexivity. Qed.

(** ** Suspicious addresses *)

(** When a non-absent address is suspicious. *)
Lemma is_suspicious_spec (address : string) :
  _is_suspicious_upi (Some address) = Ok true <->
  address = EmptyString \/
  (exists keyword, In keyword suspicious_keywords /\
                   Py.contains keyword (Py.lower address) = true) \/
  too_many_digits (local_part address) = true \/
  Py.len (local_part address) < 3.
Proof.
  unfold _is_suspicious_upi. destruct address as [|c address]; [cbn; intuition|].
  cbn [Py.truthy negb]. set (addr := String c address).
  destruct (existsb _ suspicious_keywords) eqn:Hkw.
  - split; [|done]. intros _. right; left.
    apply existsb_exists in Hkw as (kw & Hin & Hkw). eauto.
  - assert (Hno : ~ exists keyword, In keyword suspicious_keywords /\
                    Py.contains keyword (Py.lower addr) = true).
    { intros (kw & Hin & Hc). apply not_true_iff_false in Hkw. apply Hkw.
      apply existsb_exists. eauto. }
    fold (local_part addr). unfold too_many_digits.
    destruct (0 <? Py.len (local_part addr)) eqn:Hpos.
    + unfold Py.int_truediv. destruct (_ =? 0) eqn:Hz; [lia|].
      cbn [mbind result_bind holds].
      destruct (Py.gt _ _); [intuition|].
      destruct (Py.len (local_part addr) <? 3) eqn:Hshort.
      * split; [|done]. intros _. do 3 right. lia.
      * split; [done|]. intros [|[|[|]]]; try done. lia.
    + cbn [mbind result_bind holds].
      destruct (Py.len (local_part addr) <? 3) eqn:Hshort.
      * split; [|done]. intros _. do 3 right. lia.
      * split; [done|]. intros [|[|[|]]]; try done. lia.
Qed.

(** ** The feature encoder *)

(** The padding loop stops because the list has reached 64 elements, not
    because the turns have run out. *)
Lemma pad_features_length (turns : nat) (features : list float) (amount hour : float) :
  (64 - length features <= turns)%nat ->
  length (pad_features turns features amount hour) = Nat.max (length features) 64.
Proof.
  revert features. induction turns as [|turns IH]; intros features Hturns.
  - cbn. lia.
  - cbn [pad_features]. destruct (length features <? 64)%nat eqn:Hshort.
    + apply Nat.ltb_lt in Hshort.
      destruct (length features <? 16)%nat; rewrite IH; rewrite length_app; cbn; lia.
    + apply Nat.ltb_ge in Hshort. lia.
Qed.

(** The codes of the transfer types; any other type reads as 0. *)
Lemma type_encoding_values :
  type_encoding !! "SEND" = Some 0 /\ type_encoding !! "RECEIVE" = Some 1 /\
  type_encoding !! "REQUEST" = Some 2 /\ type_encoding !! "REFUND" = None.
Proof. repeat split; reflexivity. Qed.

(** The code of each transfer type, read off the dictionary of the encoder,
    [type_encoding.get(transaction.transaction_type, 0)]: the three types
    have the codes 0, 1 and 2, and any other value, [None] included, reads
    as 0. *)
Lemma type_encoding_get (transaction_type : option string) :
  default 0 (transaction_type ≫= (type_encoding !!.)) =
    match transaction_type with
    | Some ty =>
        if String.eqb ty "SEND" then 0
        else if String.eqb ty "RECEIVE" then 1
        else if String.eqb ty "REQUEST" then 2
        else 0
    | None => 0
    end.
Proof.
  destruct transaction_type as [ty|]; [|reflexivity].
  change (default 0 (type_encoding !! ty) =
            if String.eqb ty "SEND" then 0
            else if String.eqb ty "RECEIVE" then 1
            else if String.eqb ty "REQUEST" then 2
            else 0).
  change type_encoding
    with (<["SEND" := 0]> (<["RECEIVE" := 1]> (<["REQUEST" := 2]> (∅ : gmap string Z)))).
  destruct (String.eqb_spec ty "SEND") as [->|Hsend]; [by rewrite lookup_insert_eq|].
  rewrite lookup_insert_ne by done.
  destruct (String.eqb_spec ty "RECEIVE") as [->|Hreceive]; [by rewrite lookup_insert_eq|].
  rewrite lookup_insert_ne by done.
  destruct (String.eqb_spec ty "REQUEST") as [->|Hrequest]; [by rewrite lookup_insert_eq|].
  rewrite lookup_insert_ne by done. reflexivity.
Qed.

(** ** The model-or-rules policy *)

(** Without a usable model [predict] is the rule-based scorer: when the
    scorer raises, the handler calls it again and it raises again. *)
Lemma predict_without_model self now t :
  model_ready self = None -> predict self now t = rule_based_detection now t.
Proof.
  unfold predict. intros ->. by destruct (rule_based_detection now t).
Qed.

Lemma load_model_absent env self :
  artifacts_present env = false -> model (load_model env self) = None.
Proof.
  unfold artifacts_present, load_model.
  destruct (ML_MODEL_PATH env) as [mp|]; [|done].
  destruct (SCALER_PATH env) as [sp|]; [|done].
  cbn [mbind result_bind]. by intros ->.
Qed.


(** [predict] either answers as the rule-based scorer does, or returns the
    verdict built from the model's probability. *)
Lemma predict_cases self now t :
  predict self now t = rule_based_detection now t \/
  exists cnn features probability,
    model_ready self = Some cnn /\ extract_features t = Ok features /\
    cnn_predict cnn features = Ok probability /\
    predict self now t = Ok (cnn_verdict now probability).
Proof.
  unfold predict. destruct (model_ready self) as [cnn|].
  - destruct (extract_features t) as [features|e] eqn:Hf; [|by left].
    cbn [mbind result_bind].
    destruct (cnn_predict cnn features) as [p|e] eqn:Hp; [|by left].
    right. exists cnn, features, p. done.
  - left. by destruct (rule_based_detection now t).
Qed.

(** The keys of a verdict built from the model. *)
Lemma lookup_cnn now p :
  cnn_verdict now p !! "is_fraud" = Some (VBool (Py.gt p 0.5)) /\
  cnn_verdict now p !! "fraud_probability" = Some (VFloat p) /\
  cnn_verdict now p !! "detection_method" = Some (VStr "cnn_model") /\
  cnn_verdict now p !! "confidence" = Some (VFloat (abs (p - 0.5) * 2)%float) /\
  cnn_verdict now p !! "timestamp" = Some (VStr now) /\
  cnn_verdict now p !! "reasons" = None.
Proof. repeat split; reflexivity. Qed.

(** * The claims of the specification *)

(** ** The rule-based scorer *)

(** C1.  The specification says that an amount above 100000 triggers both
    the high-amount rule (+0.3) and the extremely-high-amount rule (+0.5),
    and that at 150000 with the other conditions of its section 8 the
    probability clamps at 1.0.  The code does otherwise: at amount 150000,
    hour 2, with device and location present and distinct valid addresses,
    the rules that fire are high amount, odd hours and round amount; the
    probability is 0.65, not clamped, and [is_fraud] is [True].  The
    extremely-high-amount text is never reported
    ([extremely_high_never_reported]): its branch is an [elif] behind the
    high-amount test. *)
Theorem amount_150000_only_high_rule (now : string) :
  exists v,
    rule_based_detection now (example_transaction 150000 2) = Ok v /\
    v !! "reasons" =
      Some (VList ["High transaction amount (>₹50,000)";
                   "Unusual transaction time (2:00 hrs)";
                   "Round amount (₹150,000)"]) /\
    v !! "fraud_probability" = Some (VFloat 0.65) /\
    v !! "is_fraud" = Some (VBool true).
Proof.
  rewrite (rule_based_detection_fired now _ 150000%float {| hour := 2; weekday := 2 |})
    by reflexivity.
  eexists. split; [reflexivity|].
  repeat split; vm_compute; reflexivity.
Qed.

(** Counterexample to C3 as stated: at amount 75000 and hour 2, with device
    and location present and distinct valid addresses that are not
    suspicious, the round-amount rule fires as well; the probability is 0.65,
    not 0.5, and [is_fraud] is [True]. *)
Lemma amount_75000_hour_2_is_flagged :
  exists v,
    rule_based_detection "2024-05-01T02:10:00" (example_transaction 75000 2) = Ok v /\
    v !! "reasons" =
      Some (VList ["High transaction amount (>₹50,000)";
                   "Unusual transaction time (2:00 hrs)";
                   "Round amount (₹75,000)"]) /\
    v !! "fraud_probability" = Some (VFloat 0.65) /\
    v !! "fraud_probability" <> Some (VFloat 0.5) /\
    v !! "is_fraud" = Some (VBool true) /\
    v !! "is_fraud" <> Some (VBool false).
Proof.
  rewrite (rule_based_detection_fired _ _ 75000%float {| hour := 2; weekday := 2 |})
    by reflexivity.
  eexists. split; [reflexivity|].
  split; [vm_compute; reflexivity|]. split; [vm_compute; reflexivity|].
  split; [|split; [vm_compute; reflexivity|vm_compute; discriminate]].
  intros H. apply (f_equal (fun o => match o with
                                     | Some (VFloat x) => PrimFloat.eqb x 0.5
                                     | _ => true
                                     end)) in H.
  vm_compute in H. discriminate.
Qed.

(** C3, amended.  For a transaction with amount 75000, created at hour 2,
    with a device id, a location that is present and not a sentinel, and
    distinct, valid, non-suspicious sender and receiver addresses, exactly
    three rules fire: high amount (+0.3), odd hours (+0.2) and round amount
    (+0.15, since 75000 is a multiple of 1000 above 10000).  The probability
    is 0.65 and [is_fraud] is [True]. *)
Theorem amount_75000_hour_2_scores_three_rules now t d :
  amount t = Ok 75000%float -> created_at t = Some d -> hour d = 2 ->
  Py.truthy (device_id t) = true -> Py.truthy (location t) = true ->
  field_in (location t) unavailable_locations = false ->
  field_eq (sender_upi t) (receiver_upi t) = false ->
  _validate_upi_format (sender_upi t) = true ->
  _validate_upi_format (receiver_upi t) = true ->
  _is_suspicious_upi (sender_upi t) = Ok false ->
  _is_suspicious_upi (receiver_upi t) = Ok false ->
  fired 75000 d t = [HighAmount; OddHours; RoundAmount] /\
  exists v,
    rule_based_detection now t = Ok v /\
    v !! "reasons" =
      Some (VList ["High transaction amount (>₹50,000)";
                   "Unusual transaction time (2:00 hrs)";
                   "Round amount (₹75,000)"]) /\
    v !! "fraud_probability" = Some (VFloat 0.65) /\
    v !! "is_fraud" = Some (VBool true).
Proof.
  intros Ha Hd Hh Hdev Hloc Hsent Hself Hsv Hrv Hss Hrs.
  assert (Hfired : fired 75000 d t = [HighAmount; OddHours; RoundAmount]).
  { unfold fired, rules.
    rewrite filter_cons_true by reflexivity.
    rewrite filter_cons_false by reflexivity.
    rewrite filter_cons_true by (cbn [triggered]; rewrite Hh; reflexivity).
    rewrite filter_cons_true by reflexivity.
    rewrite filter_cons_false by (cbn [triggered]; rewrite Hdev, Hloc, Hsent; reflexivity).
    rewrite filter_cons_false by (cbn [triggered]; exact Hself).
    rewrite filter_cons_false by (cbn [triggered]; rewrite Hsv, Hrv; reflexivity).
    rewrite filter_cons_false
      by (cbn [triggered]; unfold suspicious_pair; rewrite Hss, Hrs; reflexivity).
    rewrite filter_cons_false by reflexivity.
    rewrite filter_cons_false by reflexivity.
    reflexivity. }
  split; [exact Hfired|].
  rewrite (rule_based_detection_fired now t _ d Ha Hd), Hfired.
  eexists. split; [reflexivity|].
  split; [|split; vm_compute; reflexivity].
  destruct (lookup_rule_based now (total_weight [HighAmount; OddHours; RoundAmount],
     concat (map (reason_texts 75000 d t) [HighAmount; OddHours; RoundAmount])))
    as (_ & _ & _ & -> & _).
  cbn [snd map concat reason_texts app]. rewrite Hh. reflexivity.
Qed.

(** The theorem at the example transaction of 75000 at hour 2. *)
Lemma amount_75000_hour_2_scores_three_rules_witness :
  fired 75000 {| hour := 2; weekday := 2 |} (example_transaction 75000 2)
    = [HighAmount; OddHours; RoundAmount] /\
  exists v,
    rule_based_detection "2024-05-01T02:10:00" (example_transaction 75000 2) = Ok v /\
    v !! "reasons" =
      Some (VList ["High transaction amount (>₹50,000)";
                   "Unusual transaction time (2:00 hrs)";
                   "Round amount (₹75,000)"]) /\
    v !! "fraud_probability" = Some (VFloat 0.65) /\
    v !! "is_fraud" = Some (VBool true).
Proof.
  apply (amount_75000_hour_2_scores_three_rules "2024-05-01T02:10:00"
           (example_transaction 75000 2) {| hour := 2; weekday := 2 |});
    reflexivity.
Defined.

(** C4.  Whenever the rule-based scorer returns a verdict, its
    [fraud_probability] is [min(total, 1.0)], where [total] is the sum of the
    weights of the rules that fired, added from [0.0] in the order of the
    rules; the probability lies between 0 and 1; and [is_fraud], which the
    code computes as [fraud_score > 0.5] on the unclamped score, is the truth
    value of [fraud_probability > 0.5]. *)
Theorem probability_is_clamped_sum now t v :
  rule_based_detection now t = Ok v ->
  exists a d,
    amount t = Ok a /\ created_at t = Some d /\
    let total := total_weight (fired a d t) in
    let probability := Py.min total 1.0 in
    v !! "fraud_probability" = Some (VFloat probability) /\
    Py.le 0 probability = true /\ Py.le probability 1 = true /\
    v !! "is_fraud" = Some (VBool (Py.gt total 0.5)) /\
    v !! "is_fraud" = Some (VBool (Py.gt probability 0.5)).
Proof.
  intros Hv. destruct (rule_based_detection_inv _ _ _ Hv) as (a & d & Ha & Hd).
  exists a, d. split; [done|]. split; [done|].
  rewrite (rule_based_detection_fired now t a d Ha Hd) in Hv. injection Hv as <-.
  destruct (weights_bounds (triggered a d t)) as (H0 & H1 & Hfraud & _).
  fold (fired a d t) in H0, H1, Hfraud. cbv zeta.
  split; [reflexivity|]. split; [done|]. split; [done|].
  split; [reflexivity|]. rewrite Hfraud. reflexivity.
Qed.

(** The theorem at the example transaction of 75000 at hour 2, whose score
    is 0.65. *)
Lemma probability_is_clamped_sum_witness :
  exists a d,
    amount (example_transaction 75000 2) = Ok a /\
    created_at (example_transaction 75000 2) = Some d /\
    let total := total_weight (fired a d (example_transaction 75000 2)) in
    let probability := Py.min total 1.0 in
    rule_based_verdict "2024-05-01T02:10:00"
      (0.65%float, ["High transaction amount (>₹50,000)";
                    "Unusual transaction time (2:00 hrs)";
                    "Round amount (₹75,000)"]) !! "fraud_probability"
      = Some (VFloat probability) /\
    Py.le 0 probability = true /\ Py.le probability 1 = true /\
    rule_based_verdict "2024-05-01T02:10:00"
      (0.65%float, ["High transaction amount (>₹50,000)";
                    "Unusual transaction time (2:00 hrs)";
                    "Round amount (₹75,000)"]) !! "is_fraud"
      = Some (VBool (Py.gt total 0.5)) /\
    rule_based_verdict "2024-05-01T02:10:00"
      (0.65%float, ["High transaction amount (>₹50,000)";
                    "Unusual transaction time (2:00 hrs)";
                    "Round amount (₹75,000)"]) !! "is_fraud"
      = Some (VBool (Py.gt probability 0.5)).
Proof.
  apply (probability_is_clamped_sum "2024-05-01T02:10:00" (example_transaction 75000 2)).
  vm_compute. reflexivity.
Defined.

(** C10.  In every rule-based verdict the reasons are the reason texts of
    the rules that fired, taken in the order in which the rules are stated,
    each fired rule once: one text per rule, except that the invalid-address
    rule, whose weight is added once, gives one text per failing side.  The
    list of reasons is non-empty exactly when the probability is above 0. *)
Theorem reasons_follow_rule_order now t v :
  rule_based_detection now t = Ok v ->
  exists a d reasons probability,
    amount t = Ok a /\ created_at t = Some d /\
    v !! "reasons" = Some (VList reasons) /\
    v !! "fraud_probability" = Some (VFloat probability) /\
    sublist (fired a d t) rules /\
    reasons = concat (map (reason_texts a d t) (fired a d t)) /\
    probability = Py.min (total_weight (fired a d t)) 1.0 /\
    (reasons <> [] <-> Py.gt probability 0 = true).
Proof.
  intros Hv. destruct (rule_based_detection_inv _ _ _ Hv) as (a & d & Ha & Hd).
  rewrite (rule_based_detection_fired now t a d Ha Hd) in Hv. injection Hv as <-.
  exists a, d, (concat (map (reason_texts a d t) (fired a d t))),
    (Py.min (total_weight (fired a d t)) 1.0).
  do 4 (split; [done || reflexivity|]).
  split; [apply fired_sublist|]. do 2 (split; [reflexivity|]).
  destruct (weights_bounds (triggered a d t)) as (_ & _ & _ & Hpos).
  fold (fired a d t) in Hpos. rewrite Hpos, reasons_nil_iff. unfold fired.
  rewrite filter_nil_forallb. destruct (forallb _ rules); cbn; split; congruence.
Qed.

(** The theorem at a transaction of 250 at hour 23: two rules fire. *)
Lemma reasons_follow_rule_order_witness :
  exists a d reasons probability,
    amount (example_transaction 250 23) = Ok a /\
    created_at (example_transaction 250 23) = Some d /\
    rule_based_verdict "2024-05-01T23:05:00"
      (0.30000000000000004%float,
       ["Unusual transaction time (23:00 hrs)"; "Small amount transaction pattern"])
      !! "reasons" = Some (VList reasons) /\
    rule_based_verdict "2024-05-01T23:05:00"
      (0.30000000000000004%float,
       ["Unusual transaction time (23:00 hrs)"; "Small amount transaction pattern"])
      !! "fraud_probability" = Some (VFloat probability) /\
    sublist (fired a d (example_transaction 250 23)) rules /\
    reasons = concat (map (reason_texts a d (example_transaction 250 23))
                          (fired a d (example_transaction 250 23))) /\
    probability = Py.min (total_weight (fired a d (example_transaction 250 23))) 1.0 /\
    (reasons <> [] <-> Py.gt probability 0 = true).
Proof.
  apply (reasons_follow_rule_order "2024-05-01T23:05:00" (example_transaction 250 23)).
  vm_compute. reflexivity.
Defined.

(** With both addresses malformed the invalid-address rule adds its weight
    once and reports both sides. *)
Example both_addresses_invalid :
  let t := {| amount := Ok 20%float; transaction_type := Some "SEND";
              created_at := Some {| hour := 12; weekday := 2 |};
              sender_upi := Some "ab@x"; receiver_upi := Some "cd@y";
              location := Some "Mumbai"; device_id := Some "device-1" |} in
  fired 20 {| hour := 12; weekday := 2 |} t = [InvalidAddress; SuspiciousAddress] /\
  reason_texts 20 {| hour := 12; weekday := 2 |} t InvalidAddress
    = ["Invalid sender UPI format"; "Invalid receiver UPI format"] /\
  total_weight (fired 20 {| hour := 12; weekday := 2 |} t) = 0.75%float.
Proof. repeat split; vm_compute; reflexivity. Qed.

(** ** The address validator *)

(** Counterexample to C5 as stated: ["ravi.kumar@testpay"] is flagged, though
    it is not empty and its local part ["ravi.kumar"] contains no keyword of
    the denylist, has no digit and is ten characters long.  The keyword
    ["test"] stands in the provider part. *)
Lemma provider_keyword_is_flagged :
  _is_suspicious_upi (Some "ravi.kumar@testpay") = Ok true /\
  "ravi.kumar@testpay" <> EmptyString /\
  local_part "ravi.kumar@testpay" = "ravi.kumar" /\
  existsb (fun keyword => Py.contains keyword (Py.lower (local_part "ravi.kumar@testpay")))
    suspicious_keywords = false /\
  too_many_digits (local_part "ravi.kumar@testpay") = false /\
  (Py.len (local_part "ravi.kumar@testpay") <? 3) = false.
Proof. repeat split; vm_compute; done. Qed.

(** C5, amended.  [_is_suspicious_upi] returns true exactly when the address
    is empty, or the whole address (local part or provider), put in lower
    case, contains a keyword of the denylist, or the digit fraction of the
    local part exceeds 0.7, or the local part is shorter than 3 characters;
    otherwise it returns false, and it never raises.  An absent address
    ([None]) is suspicious like the empty one.  In particular
    ["admin123@ybl"] is suspicious and ["ravi.kumar@icici"] is not. *)
Theorem is_suspicious_reads_whole_address (address : string) :
  (_is_suspicious_upi (Some address) = Ok true <->
     address = EmptyString \/
     (exists keyword, In keyword suspicious_keywords /\
                      Py.contains keyword (Py.lower address) = true) \/
     too_many_digits (local_part address) = true \/
     Py.len (local_part address) < 3) /\
  (_is_suspicious_upi (Some address) = Ok true \/
   _is_suspicious_upi (Some address) = Ok false) /\
  _is_suspicious_upi None = Ok true /\
  _is_suspicious_upi (Some "admin123@ybl") = Ok true /\
  _is_suspicious_upi (Some "ravi.kumar@icici") = Ok false.
Proof.
  split; [apply is_suspicious_spec|]. split.
  - destruct (is_suspicious_returns (Some address)) as [[|] ->]; auto.
  - repeat split; vm_compute; reflexivity.
Qed.

(** C6.  The specification says that [validate] accepts a string exactly
    when the whole string has the address syntax, with no extra character.
    The code accepts ["john@paytm"] followed by a newline, which does not
    have the address syntax: [re.match] is given a pattern that ends in [$],
    and [$] also matches just before a newline that ends the string.  The
    exact set of accepted strings is given by [validate_spec]; the three
    examples of the specification hold ([validate_examples]). *)
Theorem validate_accepts_trailing_newline :
  _validate_upi_format (Some ("john@paytm" +:+ newline_string)) = true /\
  ~ address_syntax ("john@paytm" +:+ newline_string).
Proof. split; [reflexivity|apply newline_refused_by_syntax]. Qed.

(** ** The feature encoder *)

(** C7.  For every transaction whose required fields are well formed (an
    amount that converts to a float, a timestamp, two address strings), and
    whatever the optional location and device fields hold, the encoder
    returns exactly 64 values in the documented order: amount/100000, the
    transfer-type code over 2, hour/23, weekday/6, the two address lengths
    over 100, the location flag and the device flag; index 8 holds
    amount * (hour/23) and indices 9 to 63 hold zero.  The transfer-type code
    is 0 for SEND, 1 for RECEIVE, 2 for REQUEST and 0 for any other type
    ([None] included), so that index 1 holds 0, 0.5, 1 and 0.  A location or
    device that is [None] or empty gives the flag 0.0 and no failure.  The
    list the function builds holds these values as doubles; the array it
    returns holds them cast to [float32], as the last line of the function
    asks. *)
Theorem extract_features_layout t a d sender receiver :
  amount t = Ok a -> created_at t = Some d ->
  sender_upi t = Some sender -> receiver_upi t = Some receiver ->
  let type_code :=
    match transaction_type t with
    | Some ty =>
        if String.eqb ty "SEND" then 0
        else if String.eqb ty "RECEIVE" then 1
        else if String.eqb ty "REQUEST" then 2
        else 0
    | None => 0
    end in
  let hour_fraction := (Py.float_of_Z (hour d) / 23)%float in
  let documented :=
    [(a / 100000)%float;
     (Py.float_of_Z type_code / 2)%float;
     hour_fraction;
     (Py.float_of_Z (weekday d) / 6)%float;
     (Py.float_of_Z (Py.len sender) / 100)%float;
     (Py.float_of_Z (Py.len receiver) / 100)%float;
     if Py.truthy (location t) then 1%float else 0%float;
     if Py.truthy (device_id t) then 1%float else 0%float] in
  feature_list t = Ok (documented ++ [(a * hour_fraction)%float] ++ replicate 55 0%float) /\
  exists features,
    extract_features t = Ok features /\
    length features = 64%nat /\
    features = map Py.float32 (documented ++ [(a * hour_fraction)%float] ++ replicate 55 0%float) /\
    features !! 1%nat =
      Some (match transaction_type t with
            | Some ty =>
                if String.eqb ty "SEND" then 0
                else if String.eqb ty "RECEIVE" then 0.5
                else if String.eqb ty "REQUEST" then 1
                else 0
            | None => 0
            end)%float /\
    features !! 8%nat = Some (Py.float32 (a * hour_fraction)) /\
    (forall i, (9 <= i < 64)%nat -> features !! i = Some 0%float) /\
    (Py.truthy (location t) = false -> features !! 6%nat = Some 0%float) /\
    (Py.truthy (device_id t) = false -> features !! 7%nat = Some 0%float).
Proof.
  intros Ha Hd Hs Hr type_code hour_fraction documented.
  assert (Hlist : feature_list t =
            Ok (documented ++ [(a * hour_fraction)%float] ++ replicate 55 0%float)).
  { unfold feature_list. rewrite Ha, Hd, Hs, Hr, type_encoding_get. reflexivity. }
  split; [exact Hlist|].
  exists (map Py.float32 (documented ++ [(a * hour_fraction)%float] ++ replicate 55 0%float)).
  split.
  { unfold extract_features. rewrite Hlist. reflexivity. }
  split; [reflexivity|]. split; [reflexivity|]. split.
  { cbn [documented map app lookup list_lookup]. unfold type_code. f_equal.
    destruct (transaction_type t) as [ty|]; [|vm_compute; reflexivity].
    destruct (String.eqb ty "SEND"); [vm_compute; reflexivity|].
    destruct (String.eqb ty "RECEIVE"); [vm_compute; reflexivity|].
    destruct (String.eqb ty "REQUEST"); vm_compute; reflexivity. }
  split; [reflexivity|].
  split.
  - intros i Hi.
    do 9 (destruct i as [|i]; [lia|]).
    change (replicate 55 0%float !! i = Some 0%float).
    apply lookup_replicate_2. lia.
  - split; intros Hflag; cbn [documented map app]; rewrite Hflag; reflexivity.
Qed.

(** The theorem at a received transfer of 75000 at hour 2 that has no
    location: index 1 holds 0.5 and the location flag is 0. *)
Lemma extract_features_layout_witness :
  exists features,
    extract_features received_transaction = Ok features /\
    length features = 64%nat /\
    features !! 0%nat = Some 0.75%float /\
    features !! 1%nat = Some 0.5%float /\
    features !! 6%nat = Some 0%float /\
    features !! 7%nat = Some 1%float /\
    features !! 8%nat = Some (Py.float32 (75000 * (2 / 23))%float) /\
    features !! 63%nat = Some 0%float.
Proof.
  destruct (extract_features_layout received_transaction 75000%float
              {| hour := 2; weekday := 2 |} "ravi.kumar@icici" "john@paytm"
              eq_refl eq_refl eq_refl eq_refl)
    as (_ & features & Hf & Hlen & Heq & H1 & H8 & Hzero & Hloc & _).
  exists features. split; [exact Hf|]. split; [exact Hlen|].
  split; [rewrite Heq; reflexivity|]. split; [exact H1|].
  split; [apply Hloc; reflexivity|].
  split; [rewrite Heq; reflexivity|].
  split; [exact H8|]. apply Hzero. lia.
Defined.

(** ** The model-or-rules policy *)

(** C8.  When the model file or the scaler file is absent, the detector is
    built with [model = None]; every call of [predict] then gives what the
    rule-based scorer gives, a verdict whose [detection_method] is
    ['rule_based'] whenever the scorer returns one, which it does for every
    record with a numeric amount and a timestamp; and every call served by
    the process is answered this way, the model being loaded at construction
    only. *)
Theorem absent_artifacts_mean_rules env :
  artifacts_present env = false ->
  model (__init__ env) = None /\
  (forall now t,
     predict (__init__ env) now t = rule_based_detection now t /\
     (forall v, predict (__init__ env) now t = Ok v ->
                v !! "detection_method" = Some (VStr "rule_based")) /\
     (forall a d, amount t = Ok a -> created_at t = Some d ->
                  returns (predict (__init__ env) now t))) /\
  (forall calls,
     serve env calls = map (fun call => rule_based_detection (fst call) (snd call)) calls).
Proof.
  intros Habsent.
  assert (Hnone : model (__init__ env) = None) by by apply load_model_absent.
  assert (Hrules : forall now t, predict (__init__ env) now t = rule_based_detection now t).
  { intros now t. apply predict_without_model. unfold model_ready. by rewrite Hnone. }
  split; [done|]. split.
  - intros now t. split; [done|]. rewrite Hrules. split.
    + apply rule_based_method.
    + apply rule_based_detection_returns.
  - intros calls. unfold serve. apply map_ext. intros call. apply Hrules.
Qed.

(** The theorem in a process whose artifact files are absent. *)
Lemma absent_artifacts_mean_rules_witness :
  model (__init__ example_environment) = None /\
  serve example_environment [("2024-05-01T02:10:00", example_transaction 75000 2)]
    = [rule_based_detection "2024-05-01T02:10:00" (example_transaction 75000 2)].
Proof.
  destruct (absent_artifacts_mean_rules example_environment eq_refl) as (Hnone & _ & Hserve).
  split; [exact Hnone|]. apply Hserve.
Defined.



(** Counterexample to C9 as stated: the verdict built from the model has
    no [reasons] key at all, so it does not hold an empty list there. *)
Lemma model_verdict_has_no_reasons :
  exists v,
    predict example_detector "2024-05-01T12:00:00" (example_transaction 1200 12) = Ok v /\
    v !! "detection_method" = Some (VStr "cnn_model") /\
    v !! "reasons" = None /\
    v !! "reasons" <> Some (VList []).
Proof.
  exists (cnn_verdict "2024-05-01T12:00:00" 0.9). split; [reflexivity|].
  destruct (lookup_cnn "2024-05-01T12:00:00" 0.9) as (_ & _ & -> & _ & _ & ->).
  repeat split; discriminate.
Qed.

(** C9, amended.  When [predict] answers with the model (detection method
    ['cnn_model']), the verdict has no [reasons] field; it has the model's
    probability, [is_fraud = probability > 0.5], and a [confidence] field
    equal to [abs(probability - 0.5) * 2], which lies between 0 and 1
    whenever the probability does. *)
Theorem model_verdict_fields self now t v :
  predict self now t = Ok v ->
  v !! "detection_method" = Some (VStr "cnn_model") ->
  exists probability,
    v !! "fraud_probability" = Some (VFloat probability) /\
    v !! "is_fraud" = Some (VBool (Py.gt probability 0.5)) /\
    v !! "reasons" = None /\
    v !! "confidence" = Some (VFloat (abs (probability - 0.5) * 2)%float) /\
    (Py.le 0 probability = true -> Py.le probability 1 = true ->
     Py.le 0 (abs (probability - 0.5) * 2)%float = true /\
     Py.le (abs (probability - 0.5) * 2)%float 1 = true).
Proof.
  intros Hv Hmethod.
  destruct (predict_cases self now t) as [Hp|(cnn & fs & p & _ & _ & _ & Hp)].
  - rewrite Hp in Hv. apply rule_based_method in Hv. rewrite Hv in Hmethod. discriminate.
  - rewrite Hp in Hv. injection Hv as <-. exists p.
    destruct (lookup_cnn now p) as (-> & -> & _ & -> & _ & ->).
    do 4 (split; [reflexivity|]). apply confidence_in_unit_interval.
Qed.

(** The bound on [confidence] rests on the model returning a probability:
    a model that answered 1.5 would get the confidence 2. *)
Example confidence_follows_the_model :
  cnn_verdict "2024-05-01T12:00:00" 1.5 !! "confidence" = Some (VFloat 2).
Proof. reflexivity. Qed.

(** The theorem at a detector whose model answers 0.9. *)
Lemma model_verdict_fields_witness :
  exists probability,
    cnn_verdict "2024-05-01T12:00:00" 0.9 !! "fraud_probability" = Some (VFloat probability) /\
    cnn_verdict "2024-05-01T12:00:00" 0.9 !! "is_fraud" = Some (VBool (Py.gt probability 0.5)) /\
    cnn_verdict "2024-05-01T12:00:00" 0.9 !! "reasons" = None /\
    cnn_verdict "2024-05-01T12:00:00" 0.9 !! "confidence"
      = Some (VFloat (abs (probability - 0.5) * 2)%float) /\
    (Py.le 0 probability = true -> Py.le probability 1 = true ->
     Py.le 0 (abs (probability - 0.5) * 2)%float = true /\
     Py.le (abs (probability - 0.5) * 2)%float 1 = true).
Proof.
  apply (model_verdict_fields example_detector "2024-05-01T12:00:00"
           (example_transaction 1200 12)).
  - reflexivity.
  - apply lookup_cnn.
Defined.

(** * Further properties of the code *)

(** ** The rule-based scorer *)

(** The fields of a rule-based verdict, in terms of the rules that fire. *)
Lemma rule_based_detection_lookup now t a d v :
  amount t = Ok a -> created_at t = Some d -> rule_based_detection now t = Ok v ->
  v !! "is_fraud" = Some (VBool (Py.gt (total_weight (fired a d t)) 0.5)) /\
  v !! "fraud_probability" = Some (VFloat (Py.min (total_weight (fired a d t)) 1.0)) /\
  v !! "reasons" = Some (VList (concat (map (reason_texts a d t) (fired a d t)))).
Proof.
  intros Ha Hd Hv. rewrite (rule_based_detection_fired now t a d Ha Hd) in Hv.
  injection Hv as <-. repeat split; reflexivity.
Qed.

(** The verdict on a record, from the score and the reasons of the rules
    that fire on it. *)
Lemma rule_based_detection_scored now t a d score reasons :
  amount t = Ok a -> created_at t = Some d ->
  total_weight (fired a d t) = score ->
  concat (map (reason_texts a d t) (fired a d t)) = reasons ->
  rule_based_detection now t = Ok (rule_based_verdict now (score, reasons)).
Proof. intros Ha Hd <- <-. by apply rule_based_detection_fired. Qed.

(** Computes the verdict on an example record. *)
Ltac scored a d :=
  apply (rule_based_detection_scored _ _ a d);
  [reflexivity|reflexivity|vm_compute; reflexivity|vm_compute; reflexivity].

(** The text of a rule that fires is among the reasons. *)
Lemma fired_reason_reported a d t r text :
  triggered a d t r = true -> In text (reason_texts a d t r) ->
  In text (concat (map (reason_texts a d t) (fired a d t))).
Proof.
  intros Hr Htext. apply in_concat. exists (reason_texts a d t r). split; [|done].
  apply in_map. apply filter_In. split; [|done]. destruct r; cbn; tauto.
Qed.

(** One case for each set of rules that may fire. *)
Ltac each_subset f :=
  unfold rules; cbn [List.filter];
  destruct (f HighAmount), (f ExtremelyHighAmount), (f OddHours), (f RoundAmount),
    (f MissingContext), (f SelfTransfer), (f InvalidAddress), (f SuspiciousAddress),
    (f SmallAmount), (f UnusualPrecision).

Lemma self_transfer_total (f : rule -> bool) :
  f SelfTransfer = true -> Py.gt (total_weight (List.filter f rules)) 0.5 = true.
Proof. each_subset f; intros H; try discriminate H; vm_compute; reflexivity. Qed.

Lemma invalid_suspicious_total (f : rule -> bool) :
  f InvalidAddress = true -> f SuspiciousAddress = true ->
  Py.gt (total_weight (List.filter f rules)) 0.5 = true.
Proof.
  each_subset f; intros H1 H2; try discriminate H1; try discriminate H2;
    vm_compute; reflexivity.
Qed.

Lemma invalid_total (f : rule -> bool) :
  f InvalidAddress = true ->
  Py.gt (total_weight (List.filter f rules)) 0.5 = true <->
  List.filter f rules <> [InvalidAddress].
Proof.
  each_subset f; intros H; try discriminate H;
    (split; [intros Hgt; first [discriminate | vm_compute in Hgt; discriminate Hgt]
            |intros Hne; first [vm_compute; reflexivity | by destruct Hne]]).
Qed.

(** X1.  A transfer whose sender and receiver addresses are equal (two equal
    strings, or both [None]) is always flagged: whatever else the record
    holds, [is_fraud] is [True] and the reasons include the self-transfer
    text.  The weight 0.6 of the rule is above the threshold by itself, and
    no other weight brings the binary64 sum back under it. *)
Theorem self_transfer_is_flagged now t v :
  rule_based_detection now t = Ok v ->
  field_eq (sender_upi t) (receiver_upi t) = true ->
  v !! "is_fraud" = Some (VBool true) /\
  exists reasons,
    v !! "reasons" = Some (VList reasons) /\
    In "Self-transfer detected (same UPI IDs)" reasons.
Proof.
  intros Hv Hsame. destruct (rule_based_detection_inv _ _ _ Hv) as (a & d & Ha & Hd).
  destruct (rule_based_detection_lookup now t a d v Ha Hd Hv) as (Hfraud & _ & Hreasons).
  split.
  - rewrite Hfraud. unfold fired. by rewrite self_transfer_total.
  - eexists. split; [exact Hreasons|].
    apply (fired_reason_reported a d t SelfTransfer); [exact Hsame|by left].
Qed.

(** The theorem at a transfer from ["john@paytm"] to itself. *)
Lemma self_transfer_is_flagged_witness :
  rule_based_verdict "2024-05-01T12:00:00"
    (0.6%float, ["Self-transfer detected (same UPI IDs)"]) !! "is_fraud"
    = Some (VBool true) /\
  exists reasons,
    rule_based_verdict "2024-05-01T12:00:00"
      (0.6%float, ["Self-transfer detected (same UPI IDs)"]) !! "reasons"
      = Some (VList reasons) /\
    In "Self-transfer detected (same UPI IDs)" reasons.
Proof.
  apply (self_transfer_is_flagged "2024-05-01T12:00:00"
           (transfer_between (Some "john@paytm") (Some "john@paytm"))).
  - scored 1200%float {| hour := 12; weekday := 2 |}.
  - reflexivity.
Defined.

(** An address that is [None] or empty fails the format check and is
    suspicious. *)
Lemma missing_address_invalid upi_id :
  Py.truthy upi_id = false ->
  _validate_upi_format upi_id = false /\ _is_suspicious_upi upi_id = Ok true.
Proof. destruct upi_id as [[|c s]|]; [done|discriminate|done]. Qed.

(** The text of a failing side is among the reasons exactly when that side
    fails the format check: no other rule reports it. *)
Lemma invalid_side_reported a d t :
  (In "Invalid sender UPI format" (concat (map (reason_texts a d t) (fired a d t)))
     <-> _validate_upi_format (sender_upi t) = false) /\
  (In "Invalid receiver UPI format" (concat (map (reason_texts a d t) (fired a d t)))
     <-> _validate_upi_format (receiver_upi t) = false).
Proof.
  split; split.
  - intros Hin. apply in_concat in Hin as (texts & Htexts & Hin).
    apply in_map_iff in Htexts as (r & <- & Hr).
    destruct r; cbn [reason_texts] in Hin;
      repeat case_match; cbn in Hin; first [done | intuition discriminate].
  - intros Hinvalid. apply (fired_reason_reported a d t InvalidAddress).
    + cbn [triggered]. by rewrite Hinvalid.
    + cbn [reason_texts]. rewrite Hinvalid. by left.
  - intros Hin. apply in_concat in Hin as (texts & Htexts & Hin).
    apply in_map_iff in Htexts as (r & <- & Hr).
    destruct r; cbn [reason_texts] in Hin;
      repeat case_match; cbn in Hin; first [done | intuition discriminate].
  - intros Hinvalid. apply (fired_reason_reported a d t InvalidAddress).
    + cbn [triggered]. rewrite Hinvalid. apply orb_true_r.
    + cbn [reason_texts]. rewrite Hinvalid. apply in_or_app. right. by left.
Qed.

(** X2.  A record whose sender or receiver address is [None] or the empty
    string is always flagged: the invalid-format rule (+0.5) and the
    suspicious-pattern rule (+0.25) both fire on it, so [is_fraud] is [True]
    and the reasons hold the suspicious-pattern text and the text of each
    missing side.  The reasons name the failing side and no other: the
    sender text is there exactly when the sender address fails the format
    check, and the receiver text exactly when the receiver address does. *)
Theorem missing_address_is_flagged now t v :
  rule_based_detection now t = Ok v ->
  Py.truthy (sender_upi t) = false \/ Py.truthy (receiver_upi t) = false ->
  v !! "is_fraud" = Some (VBool true) /\
  exists reasons,
    v !! "reasons" = Some (VList reasons) /\
    In "Suspicious UPI pattern detected" reasons /\
    (Py.truthy (sender_upi t) = false -> In "Invalid sender UPI format" reasons) /\
    (Py.truthy (receiver_upi t) = false -> In "Invalid receiver UPI format" reasons) /\
    (In "Invalid sender UPI format" reasons <->
       _validate_upi_format (sender_upi t) = false) /\
    (In "Invalid receiver UPI format" reasons <->
       _validate_upi_format (receiver_upi t) = false).
Proof.
  intros Hv Hmissing. destruct (rule_based_detection_inv _ _ _ Hv) as (a & d & Ha & Hd).
  destruct (rule_based_detection_lookup now t a d v Ha Hd Hv) as (Hfraud & _ & Hreasons).
  destruct (invalid_side_reported a d t) as [Hsender Hreceiver].
  assert (Hinvalid : triggered a d t InvalidAddress = true).
  { cbn [triggered]. destruct Hmissing as [H|H];
      apply missing_address_invalid in H as [-> _]; cbn; [done|apply orb_true_r]. }
  assert (Hsuspicious : triggered a d t SuspiciousAddress = true).
  { cbn [triggered]. unfold suspicious_pair.
    destruct (is_suspicious_returns (sender_upi t)) as [bs Hbs].
    destruct Hmissing as [H|H]; apply missing_address_invalid in H as [_ H].
    - by rewrite H.
    - rewrite Hbs, H. by destruct bs. }
  split.
  - rewrite Hfraud. unfold fired. by rewrite invalid_suspicious_total.
  - eexists. split; [exact Hreasons|]. split.
    { apply (fired_reason_reported a d t SuspiciousAddress); [done|by left]. }
    split.
    { intros H. apply Hsender. by apply missing_address_invalid in H as [H _]. }
    split.
    { intros H. apply Hreceiver. by apply missing_address_invalid in H as [H _]. }
    split; [exact Hsender|exact Hreceiver].
Qed.

(** The theorem at a transfer whose sender address is [None] and whose
    receiver address is valid: the reasons hold the sender text, not the
    receiver text. *)
Lemma missing_address_is_flagged_witness :
  rule_based_verdict "2024-05-01T12:00:00"
    (0.75%float, ["Invalid sender UPI format"; "Suspicious UPI pattern detected"])
    !! "is_fraud" = Some (VBool true) /\
  exists reasons,
    rule_based_verdict "2024-05-01T12:00:00"
      (0.75%float, ["Invalid sender UPI format"; "Suspicious UPI pattern detected"])
      !! "reasons" = Some (VList reasons) /\
    In "Suspicious UPI pattern detected" reasons /\
    (Py.truthy (sender_upi (transfer_between None (Some "john@paytm"))) = false ->
     In "Invalid sender UPI format" reasons) /\
    (Py.truthy (receiver_upi (transfer_between None (Some "john@paytm"))) = false ->
     In "Invalid receiver UPI format" reasons) /\
    (In "Invalid sender UPI format" reasons <->
       _validate_upi_format (sender_upi (transfer_between None (Some "john@paytm"))) = false) /\
    (In "Invalid receiver UPI format" reasons <->
       _validate_upi_format (receiver_upi (transfer_between None (Some "john@paytm")))
         = false).
Proof.
  apply (missing_address_is_flagged "2024-05-01T12:00:00"
           (transfer_between None (Some "john@paytm"))).
  - scored 1200%float {| hour := 12; weekday := 2 |}.
  - left. reflexivity.
Defined.

(** X3.  The invalid-format rule, which the code marks as critical, does not
    flag a transaction by itself: its weight is exactly the threshold 0.5 and
    the test is [fraud_score > 0.5].  When an address fails the format check,
    [is_fraud] is [True] exactly when at least one other rule fires as
    well. *)
Theorem invalid_address_alone_is_not_flagged now t a d v :
  amount t = Ok a -> created_at t = Some d ->
  rule_based_detection now t = Ok v ->
  _validate_upi_format (sender_upi t) = false \/
    _validate_upi_format (receiver_upi t) = false ->
  (v !! "is_fraud" = Some (VBool true) <-> fired a d t <> [InvalidAddress]).
Proof.
  intros Ha Hd Hv Hinvalid.
  destruct (rule_based_detection_lookup now t a d v Ha Hd Hv) as (Hfraud & _).
  assert (Hfires : triggered a d t InvalidAddress = true).
  { cbn [triggered]. destruct Hinvalid as [-> | ->]; [done|apply orb_true_r]. }
  pose proof (invalid_total (triggered a d t) Hfires) as Hiff. fold (fired a d t) in Hiff.
  rewrite Hfraud, <- Hiff. split; [by intros [= ->]|by intros ->].
Qed.

(** The theorem at a transfer to ["john@pt"], whose provider is too short:
    no other rule fires, the score is 0.5, and the transfer is not
    flagged. *)
Lemma invalid_address_alone_is_not_flagged_witness :
  rule_based_verdict "2024-05-01T12:00:00" (0.5%float, ["Invalid receiver UPI format"])
    !! "is_fraud" = Some (VBool true) <->
  fired 1200 {| hour := 12; weekday := 2 |}
    (transfer_between (Some "ravi.kumar@icici") (Some "john@pt")) <> [InvalidAddress].
Proof.
  apply (invalid_address_alone_is_not_flagged "2024-05-01T12:00:00"
           (transfer_between (Some "ravi.kumar@icici") (Some "john@pt"))).
  - reflexivity.
  - reflexivity.
  - scored 1200%float {| hour := 12; weekday := 2 |}.
  - right. reflexivity.
Defined.

(** X4.  When exactly one rule fires, the transaction is flagged only if
    that rule is the self-transfer rule: every other weight is at most 0.5,
    and the threshold is strict. *)
Theorem single_rule_flags_only_self_transfer now t a d v r :
  amount t = Ok a -> created_at t = Some d ->
  rule_based_detection now t = Ok v ->
  fired a d t = [r] ->
  (v !! "is_fraud" = Some (VBool true) <-> r = SelfTransfer).
Proof.
  intros Ha Hd Hv Hfired.
  destruct (rule_based_detection_lookup now t a d v Ha Hd Hv) as (Hfraud & _).
  rewrite Hfraud, Hfired.
  destruct r; vm_compute; split; intros H; done.
Qed.

(** The theorem at a transfer from ["john@paytm"] to itself, on which only
    the self-transfer rule fires. *)
Lemma single_rule_flags_only_self_transfer_witness :
  rule_based_verdict "2024-05-01T12:00:00"
    (0.6%float, ["Self-transfer detected (same UPI IDs)"]) !! "is_fraud"
    = Some (VBool true) <-> SelfTransfer = SelfTransfer.
Proof.
  apply (single_rule_flags_only_self_transfer "2024-05-01T12:00:00"
           (transfer_between (Some "john@paytm") (Some "john@paytm"))
           1200%float {| hour := 12; weekday := 2 |}).
  - reflexivity.
  - reflexivity.
  - scored 1200%float {| hour := 12; weekday := 2 |}.
  - vm_compute. reflexivity.
Defined.

(** *** More rules, a higher score *)

Lemma select_filter (f : rule -> bool) (rs : list rule) :
  select (map f rs) rs = List.filter f rs.
Proof. induction rs as [|r rs IH]; [done|]. cbn. by rewrite IH. Qed.

Lemma masks_complete (mask : list bool) : In mask (masks (length mask)).
Proof.
  induction mask as [|b mask IH]; [by left|].
  cbn [length masks]. apply in_flat_map. exists mask. split; [done|].
  destruct b; cbn; auto.
Qed.

Lemma covered_map (f g : rule -> bool) (rs : list rule) :
  (forall r, f r = true -> g r = true) -> covered (map f rs) (map g rs) = true.
Proof.
  intros Hfg. induction rs as [|r rs IH]; [done|].
  cbn. rewrite IH, andb_true_r. specialize (Hfg r).
  destruct (f r); [by rewrite Hfg|done].
Qed.

(** Computed on all pairs of sets of rules. *)
Lemma scores_grow :
  forallb (fun mask1 =>
    forallb (fun mask2 =>
      implb (covered mask1 mask2) (grows (score_of mask1) (score_of mask2)))
      (masks (length rules)))
    (masks (length rules)) = true.
Proof. vm_compute. reflexivity. Qed.

Lemma scores_grow_spec (mask1 mask2 : list bool) :
  In mask1 (masks (length rules)) -> In mask2 (masks (length rules)) ->
  covered mask1 mask2 = true -> grows (score_of mask1) (score_of mask2) = true.
Proof.
  intros H1 H2 Hcovered.
  pose proof (proj1 (forallb_forall _ _) scores_grow mask1 H1) as H. cbv beta in H.
  pose proof (proj1 (forallb_forall _ _) H mask2 H2) as H'.
  cbv beta in H'. by rewrite Hcovered in H'.
Qed.

Lemma total_weight_grows (f g : rule -> bool) :
  (forall r, f r = true -> g r = true) ->
  grows (total_weight (List.filter f rules)) (total_weight (List.filter g rules)) = true.
Proof.
  intros Hfg. rewrite <- (select_filter f), <- (select_filter g).
  apply scores_grow_spec.
  - replace (length rules) with (length (map f rules)) by apply length_map.
    apply masks_complete.
  - replace (length rules) with (length (map g rules)) by apply length_map.
    apply masks_complete.
  - by apply covered_map.
Qed.

(** X5.  The score is monotone in the rules that fire: when every rule that
    fires on one record also fires on another, the second record gets a
    [fraud_probability] at least as high, and is flagged whenever the first
    one is.  The binary64 sums are taken in rule order, and rounding never
    reverses the order of two scores. *)
Theorem more_rules_never_lower_the_score now1 now2 t1 t2 a1 d1 a2 d2 v1 v2 :
  amount t1 = Ok a1 -> created_at t1 = Some d1 ->
  amount t2 = Ok a2 -> created_at t2 = Some d2 ->
  rule_based_detection now1 t1 = Ok v1 -> rule_based_detection now2 t2 = Ok v2 ->
  (forall r, triggered a1 d1 t1 r = true -> triggered a2 d2 t2 r = true) ->
  exists p1 p2,
    v1 !! "fraud_probability" = Some (VFloat p1) /\
    v2 !! "fraud_probability" = Some (VFloat p2) /\
    Py.le p1 p2 = true /\
    (v1 !! "is_fraud" = Some (VBool true) -> v2 !! "is_fraud" = Some (VBool true)).
Proof.
  intros Ha1 Hd1 Ha2 Hd2 Hv1 Hv2 Hsub.
  destruct (rule_based_detection_lookup _ _ _ _ _ Ha1 Hd1 Hv1) as (Hf1 & Hp1 & _).
  destruct (rule_based_detection_lookup _ _ _ _ _ Ha2 Hd2 Hv2) as (Hf2 & Hp2 & _).
  pose proof (total_weight_grows _ _ Hsub) as H. unfold grows in H.
  apply andb_true_iff in H as [Hle Himpl]. fold (fired a1 d1 t1) (fired a2 d2 t2) in Hle, Himpl.
  eexists _, _. split; [exact Hp1|]. split; [exact Hp2|]. split; [exact Hle|].
  rewrite Hf1, Hf2. intros [= H]. rewrite H in Himpl. cbn [implb] in Himpl. by rewrite Himpl.
Qed.

(** The theorem at a transfer on which no rule fires and at a self-transfer
    of the same amount. *)
Lemma more_rules_never_lower_the_score_witness :
  exists p1 p2,
    rule_based_verdict "2024-05-01T12:00:00" (0%float, []) !! "fraud_probability"
      = Some (VFloat p1) /\
    rule_based_verdict "2024-05-01T12:05:00"
      (0.6%float, ["Self-transfer detected (same UPI IDs)"]) !! "fraud_probability"
      = Some (VFloat p2) /\
    Py.le p1 p2 = true /\
    (rule_based_verdict "2024-05-01T12:00:00" (0%float, []) !! "is_fraud"
       = Some (VBool true) ->
     rule_based_verdict "2024-05-01T12:05:00"
       (0.6%float, ["Self-transfer detected (same UPI IDs)"]) !! "is_fraud"
       = Some (VBool true)).
Proof.
  apply (more_rules_never_lower_the_score "2024-05-01T12:00:00" "2024-05-01T12:05:00"
           (example_transaction 1200 12)
           (transfer_between (Some "john@paytm") (Some "john@paytm"))
           1200%float {| hour := 12; weekday := 2 |}
           1200%float {| hour := 12; weekday := 2 |}).
  - reflexivity.
  - reflexivity.
  - reflexivity.
  - reflexivity.
  - scored 1200%float {| hour := 12; weekday := 2 |}.
  - scored 1200%float {| hour := 12; weekday := 2 |}.
  - intros r. destruct r; vm_compute; intros H; first [reflexivity|discriminate H].
Defined.

(** *** Amount rules that exclude each other *)

Lemma le_500_not_gt (a : float) :
  Py.le a 500 = true ->
  Py.gt a 1000 = false /\ Py.gt a 10000 = false /\ Py.gt a 50000 = false.
Proof.
  unfold Py.gt, Py.le. rewrite leb_spec, !ltb_spec.
  eval_closed (Prim2SF 500). eval_closed (Prim2SF 1000).
  eval_closed (Prim2SF 10000). eval_closed (Prim2SF 50000).
  unfold SFleb, SFltb, SFcompare.
  destruct (Prim2SF a) as [s|s| |s m e]; try done.
  - by destruct s.
  - destruct s; [done|].
    destruct (Z.compare_spec e (-44)), (Z.compare_spec (-43) e),
      (Z.compare_spec (-39) e), (Z.compare_spec (-37) e); try done; lia.
Qed.

Lemma le_1000_not_gt (a : float) :
  Py.le a 1000 = true ->
  Py.gt a 1000 = false /\ Py.gt a 10000 = false /\ Py.gt a 50000 = false.
Proof.
  unfold Py.gt, Py.le. rewrite leb_spec, !ltb_spec.
  eval_closed (Prim2SF 1000). eval_closed (Prim2SF 10000). eval_closed (Prim2SF 50000).
  unfold SFleb, SFltb, SFcompare.
  destruct (Prim2SF a) as [s|s| |s m e]; try done.
  - by destruct s.
  - destruct s; [done|].
    destruct (Z.compare_spec e (-43)) as [->|Hlt|Hgt]; [| |done].
    + replace (-43 ?= -43) with Eq by reflexivity.
      replace (-39 ?= -43) with Gt by reflexivity.
      replace (-37 ?= -43) with Gt by reflexivity.
      rewrite (Pos.compare_cont_spec m _ Eq), (Pos.compare_cont_spec 8796093022208000 m Eq).
      cbn [Pos.switch_Eq]. rewrite (Pos.compare_antisym m).
      destruct (Pos.compare m 8796093022208000); cbn [CompOpp]; intros H;
        repeat split; first [reflexivity|discriminate H].
    + destruct (Z.compare_spec (-43) e), (Z.compare_spec (-39) e),
        (Z.compare_spec (-37) e); try done; lia.
Qed.

(** X6.  On an amount of at most 1000, and so whenever the small-amount rule
    (100 to 500) fires, none of the high-amount, extremely-high-amount,
    round-amount and unusual-precision rules fires: the amount rules for
    small and for large amounts exclude each other. *)
Theorem amounts_up_to_1000_fire_no_large_amount_rule a d t :
  Py.le a 1000 = true \/ triggered a d t SmallAmount = true ->
  triggered a d t HighAmount = false /\
  triggered a d t ExtremelyHighAmount = false /\
  triggered a d t RoundAmount = false /\
  triggered a d t UnusualPrecision = false.
Proof.
  intros H.
  assert (Hgt : Py.gt a 1000 = false /\ Py.gt a 10000 = false /\ Py.gt a 50000 = false).
  { destruct H as [H|H]; [by apply le_1000_not_gt|].
    cbn [triggered] in H. apply andb_true_iff in H as [_ H]. by apply le_500_not_gt. }
  destruct Hgt as (H1 & H2 & H3). cbn [triggered].
  split; [done|]. split; [apply (extremely_high_unreachable a d t)|]. split.
  - unfold round_amount. destruct (float_rem_1000 a) as [r ->].
    cbn [mbind result_bind holds]. rewrite H2. apply andb_false_r.
  - unfold unusual_precision. by rewrite H1.
Qed.

(** The theorem at the amount 250. *)
Lemma amounts_up_to_1000_fire_no_large_amount_rule_witness :
  triggered 250 {| hour := 12; weekday := 2 |} (example_transaction 250 12) HighAmount = false /\
  triggered 250 {| hour := 12; weekday := 2 |} (example_transaction 250 12)
    ExtremelyHighAmount = false /\
  triggered 250 {| hour := 12; weekday := 2 |} (example_transaction 250 12) RoundAmount = false /\
  triggered 250 {| hour := 12; weekday := 2 |} (example_transaction 250 12)
    UnusualPrecision = false.
Proof.
  apply amounts_up_to_1000_fire_no_large_amount_rule. left. vm_compute. reflexivity.
Defined.

(** *** Remainders that are exact *)

Lemma Zdigits2_unique (M d : Z) :
  0 < M -> 2 ^ (d - 1) <= M < 2 ^ d -> Zdigits2 M = d.
Proof.
  intros HM [Hlow Hup]. destruct (Zdigits2_bounds M HM) as [Hlow' Hup'].
  assert (Hd : 0 <= d).
  { destruct (Z.le_gt_cases 0 d); [done|]. rewrite Z.pow_neg_r in Hup by lia. lia. }
  assert (Hd' : 0 <= Zdigits2 M).
  { destruct (Z.le_gt_cases 0 (Zdigits2 M)); [done|]. rewrite Z.pow_neg_r in Hup' by lia. lia. }
  assert (H1 : Zdigits2 M - 1 < d).
  { apply (Z.pow_lt_mono_r_iff 2); lia. }
  assert (H2 : d - 1 < Zdigits2 M).
  { apply (Z.pow_lt_mono_r_iff 2); lia. }
  lia.
Qed.

Lemma Zdigits2_shift (M n : Z) :
  0 < M -> 0 <= n -> Zdigits2 (M * 2 ^ n) = Zdigits2 M + n.
Proof.
  intros HM Hn. destruct (Zdigits2_bounds M HM) as [Hlow Hup].
  assert (Hpow : 0 < 2 ^ n) by (apply Z.pow_pos_nonneg; lia).
  assert (Hd : 0 < Zdigits2 M).
  { destruct M as [|p|p]; try lia. cbn. lia. }
  apply Zdigits2_unique; [nia|].
  replace (Zdigits2 M + n - 1) with ((Zdigits2 M - 1) + n) by lia.
  rewrite !Z.pow_add_r by lia. nia.
Qed.

(** A mantissa below [2^53] with an exponent in range is a double: rounding
    leaves its value and gives a valid, non-zero number. *)
Lemma binary_round_small (s : bool) (p : positive) (e : Z) :
  Z.pos p < 2 ^ 53 -> -1074 <= e <= 971 ->
  exists m' e', binary_round prec emax s p e = S754_finite s m' e' /\
                valid_binary (S754_finite s m' e') = true.
Proof.
  intros Hp He. unfold binary_round.
  destruct (shl_align_spec p e (fexp prec emax (Z.pos (digits2_pos p) + e))) as [Hez Hmz].
  destruct (shl_align p e _) as [mz ez]. cbn [fst snd] in Hez, Hmz.
  rewrite <- Hez in Hmz.
  destruct (digits2_pos_bounds p) as [Hlow Hup].
  assert (Hd : Z.pos (digits2_pos p) <= 53).
  { destruct (Z.le_gt_cases (Z.pos (digits2_pos p)) 53) as [|Hgt]; [done|].
    assert (2 ^ 53 <= 2 ^ (Z.pos (digits2_pos p) - 1)) by (apply Z.pow_le_mono_r; lia).
    lia. }
  assert (Hfexp : ez = fexp prec emax (Z.pos (digits2_pos p) + e)).
  { rewrite Hez. unfold fexp, SpecFloat.emin, prec, emax. lia. }
  assert (Hez_le : -1074 <= ez <= e).
  { rewrite Hfexp. unfold fexp, SpecFloat.emin, prec, emax. lia. }
  assert (Hdigits : Zdigits2 (Z.pos mz) = Z.pos (digits2_pos p) + (e - ez)).
  { rewrite Hmz. apply (Zdigits2_shift (Z.pos p)); lia. }
  assert (Hcanon : fexp prec emax (Zdigits2 (Z.pos mz) + ez) = ez).
  { rewrite Hdigits. replace (Z.pos (digits2_pos p) + (e - ez) + ez)
      with (Z.pos (digits2_pos p) + e) by lia. by rewrite <- Hfexp. }
  unfold binary_round_aux.
  destruct (shr_fexp_spec (Z.pos mz) ez) as (mrs1 & -> & Hm1 & Hex1); [lia|].
  rewrite Hcanon, Z.sub_diag, Z.max_id in Hm1, Hex1 |- *.
  change (2 ^ 0) with 1 in Hm1, Hex1. rewrite Z.div_1_r in Hm1.
  rewrite (Hex1 (Z.mod_1_r _)), Hm1, Z.add_0_r. cbn [round_nearest_even].
  destruct (shr_fexp_spec (Z.pos mz) ez) as (mrs2 & -> & Hm2 & _); [lia|].
  rewrite Hcanon, Z.sub_diag, Z.max_id in Hm2 |- *.
  change (2 ^ 0) with 1 in Hm2. rewrite Z.div_1_r in Hm2.
  rewrite Hm2, Z.add_0_r.
  replace (ez <=? emax - prec) with true
    by (symmetry; apply Z.leb_le; unfold emax, prec; lia).
  exists mz, ez. split; [done|].
  cbn [valid_binary]. unfold bounded, canonical_mantissa.
  apply andb_true_iff. split.
  - apply Z.eqb_eq. exact Hcanon.
  - apply Z.leb_le. unfold emax, prec. lia.
Qed.

(** A remainder that is not zero is a positive double. *)
Lemma positive_remainder (r e : Z) :
  0 < r < 2 ^ 53 -> -1074 <= e <= 971 ->
  let md := SF2Prim (binary_normalize prec emax r e false) in
  PrimFloat.eqb md 0 = false /\ PrimFloat.ltb md 0 = false.
Proof.
  intros Hr He md. subst md. destruct r as [|p|p]; try lia.
  cbn [binary_normalize].
  destruct (binary_round_small false p e) as (m' & e' & -> & Hvalid); [lia|lia|].
  rewrite FloatAxioms.eqb_spec, FloatAxioms.ltb_spec, (Prim2SF_SF2Prim _ Hvalid).
  eval_closed (Prim2SF 0). done.
Qed.

(** A double that is a multiple of 1000 is a multiple of 10; [m * 2^e] is
    the double, and the two remainders are taken on integers, as [fmod]
    does. *)
Lemma multiple_of_1000_of_10 (m e : Z) :
  (m * 2 ^ (e - Z.min e (-43))) mod (1000 * 2 ^ 43 * 2 ^ (-43 - Z.min e (-43))) = 0 ->
  (m * 2 ^ (e - Z.min e (-49))) mod (10 * 2 ^ 49 * 2 ^ (-49 - Z.min e (-49))) = 0.
Proof.
  set (e0 := Z.min e (-43)). set (e1 := Z.min e (-49)).
  assert (H0 : e0 <= -43 /\ e0 <= e) by (unfold e0; lia).
  assert (H1 : e1 <= -49 /\ e1 <= e0) by (unfold e0, e1; lia).
  assert (HY : 1000 * 2 ^ 43 * 2 ^ (-43 - e0) = 1000 * 2 ^ (- e0)).
  { rewrite <- Z.mul_assoc, <- Z.pow_add_r by lia. do 2 f_equal. lia. }
  assert (HY' : 10 * 2 ^ 49 * 2 ^ (-49 - e1) = 10 * 2 ^ (- e1)).
  { rewrite <- Z.mul_assoc, <- Z.pow_add_r by lia. do 2 f_equal. lia. }
  rewrite HY, HY'.
  assert (Hp0 : 0 < 2 ^ (- e0)) by (apply Z.pow_pos_nonneg; lia).
  assert (Hp1 : 0 < 2 ^ (- e1)) by (apply Z.pow_pos_nonneg; lia).
  intros H. apply Z.mod_divide in H; [|lia]. destruct H as [q Hq].
  apply Z.mod_divide; [lia|]. exists (q * 100).
  replace (e - e1) with ((e - e0) + (e0 - e1)) by lia.
  rewrite Z.pow_add_r, Z.mul_assoc, Hq by lia.
  replace (- e1) with (- e0 + (e0 - e1)) by lia.
  rewrite Z.pow_add_r by lia. ring.
Qed.

(** [int] of a double that is a multiple of 1000 is that multiple. *)
Lemma multiple_of_1000_whole (m e : Z) :
  (m * 2 ^ (e - Z.min e (-43))) mod (1000 * 2 ^ 43 * 2 ^ (-43 - Z.min e (-43))) = 0 ->
  exists q, (if 0 <=? e then m * 2 ^ e else m / 2 ^ (- e)) = 1000 * q.
Proof.
  set (e0 := Z.min e (-43)).
  assert (H0 : e0 <= -43 /\ e0 <= e) by (unfold e0; lia).
  assert (HY : 1000 * 2 ^ 43 * 2 ^ (-43 - e0) = 1000 * 2 ^ (- e0)).
  { rewrite <- Z.mul_assoc, <- Z.pow_add_r by lia. do 2 f_equal. lia. }
  rewrite HY.
  assert (Hp0 : 0 < 2 ^ (- e0)) by (apply Z.pow_pos_nonneg; lia).
  intros H. apply Z.mod_divide in H; [|lia]. destruct H as [q Hq]. exists q.
  destruct (0 <=? e) eqn:He.
  - apply Z.leb_le in He.
    apply (Z.mul_reg_r _ _ (2 ^ (- e0))); [lia|].
    rewrite <- Z.mul_assoc, <- Z.pow_add_r by lia.
    replace (e + - e0) with (e - e0) by lia. lia.
  - apply Z.leb_gt in He.
    assert (Hpe : 0 < 2 ^ (- e)) by (apply Z.pow_pos_nonneg; lia).
    assert (Hm : m = 1000 * q * 2 ^ (- e)).
    { apply (Z.mul_reg_r _ _ (2 ^ (e - e0))); [apply Z.pow_nonzero; lia|].
      rewrite Hq, <- (Z.mul_assoc (1000 * q)), <- Z.pow_add_r by lia.
      replace (- e + (e - e0)) with (- e0) by lia. lia. }
    rewrite Hm. apply Z.div_mul. lia.
Qed.

(** The mantissa and the exponent of a double. *)
Lemma valid_finite (m : positive) (e : Z) :
  valid_binary (S754_finite false m e) = true ->
  Z.pos m < 2 ^ 53 /\ -1074 <= e <= 971.
Proof.
  cbn [valid_binary]. unfold bounded, canonical_mantissa. intros H.
  apply andb_true_iff in H as [Hcanon Hmax].
  apply Z.eqb_eq in Hcanon. apply Z.leb_le in Hmax.
  destruct (digits2_pos_bounds m) as [_ Hup].
  unfold fexp, SpecFloat.emin, prec, emax in Hcanon, Hmax.
  split; [|lia].
  eapply Z.lt_le_trans; [exact Hup|]. apply Z.pow_le_mono_r; lia.
Qed.

(** When the round-amount rule fires the amount is a positive double whose
    remainder by 1000, taken as [fmod] takes it, is zero. *)
Lemma round_amount_is_multiple (a : float) :
  round_amount a = true ->
  exists m e,
    Prim2SF a = S754_finite false m e /\
    (Z.pos m * 2 ^ (e - Z.min e (-43))) mod (1000 * 2 ^ 43 * 2 ^ (-43 - Z.min e (-43))) = 0.
Proof.
  unfold round_amount, Py.float_rem.
  replace (PrimFloat.eqb 1000 0) with false by (vm_compute; reflexivity).
  replace (PrimFloat.ltb 1000 0) with false by (vm_compute; reflexivity).
  replace (get_sign 1000) with false by (vm_compute; reflexivity).
  cbn [mbind result_bind holds xorb]. intros H. apply andb_true_iff in H as [Hzero Hgt].
  unfold Py.gt in Hgt. rewrite FloatAxioms.ltb_spec in Hgt.
  pose proof (Prim2SF_valid a) as Hvalid.
  unfold Py.fmod in Hzero.
  let v := eval vm_compute in (Prim2SF 1000) in change (Prim2SF 1000) with v in Hzero.
  let v := eval vm_compute in (Prim2SF 10000) in change (Prim2SF 10000) with v in Hgt.
  destruct (Prim2SF a) as [s|s| |s m e] eqn:Ha.
  - by destruct s.
  - destruct s; [done|]. vm_compute in Hzero. discriminate.
  - done.
  - destruct s; [done|].
    destruct (valid_finite m e Hvalid) as [Hm He].
    exists m, e. split; [done|].
    replace (1000 * 2 ^ 43) with (Z.pos 8796093022208000) by reflexivity.
    set (e0 := Z.min e (-43)) in *.
    set (r := (Z.pos m * 2 ^ (e - e0)) mod (Z.pos 8796093022208000 * 2 ^ (-43 - e0))) in *.
    destruct (r =? 0) eqn:Hr; [by apply Z.eqb_eq|]. exfalso.
    apply Z.eqb_neq in Hr. cbn [cond_Zopp] in Hzero.
    assert (Hpow : 0 < 2 ^ (-43 - e0)) by (apply Z.pow_pos_nonneg; unfold e0; lia).
    assert (Hrange : 0 <= r < Z.pos 8796093022208000 * 2 ^ (-43 - e0)).
    { apply Z.mod_pos_bound. lia. }
    assert (Hsmall : r < 2 ^ 53).
    { destruct (Z.le_gt_cases e (-43)) as [Hle|Hgt'].
      - assert (e0 = e) as Heq by (unfold e0; lia).
        assert (r <= Z.pos m * 2 ^ (e - e0)) by (apply Z.mod_le; [|lia]; nia).
        rewrite Heq, Z.sub_diag in H. change (2 ^ 0) with 1 in H. lia.
      - assert (e0 = -43) as Heq by (unfold e0; lia).
        rewrite Heq in Hrange. change (2 ^ (-43 - -43)) with 1 in Hrange.
        assert (Z.pos 8796093022208000 < 2 ^ 53) by reflexivity. lia. }
    destruct (positive_remainder r e0) as [Heqb Hltb]; [lia|unfold e0; lia|].
    cbv zeta in Heqb, Hltb. rewrite Heqb, Hltb in Hzero. cbn [negb] in Hzero.
    rewrite Heqb in Hzero. discriminate.
Qed.

(** X7.  When the round-amount rule fires, the amount is a whole multiple of
    1000 ([int(amount)] returns it, as the reason text shows it), and the
    unusual-precision rule does not fire: [amount % 1000 == 0] implies
    [amount % 10 == 0] on doubles, the float remainder being exact. *)
Theorem round_amount_has_no_unusual_precision a d t :
  triggered a d t RoundAmount = true ->
  (exists q, Py.int_of_float a = Ok (1000 * q)) /\
  triggered a d t UnusualPrecision = false.
Proof.
  cbn [triggered]. intros H.
  destruct (round_amount_is_multiple a H) as (m & e & Ha & Hmult). split.
  { destruct (multiple_of_1000_whole _ _ Hmult) as [q Hq]. exists q.
    unfold Py.int_of_float. rewrite Ha. cbn [cond_Zopp]. by rewrite Hq. }
  apply multiple_of_1000_of_10 in Hmult.
  unfold unusual_precision. destruct (Py.gt a 1000); [|done].
  unfold Py.float_rem.
  replace (PrimFloat.eqb 10 0) with false by (vm_compute; reflexivity).
  replace (get_sign 10) with false by (vm_compute; reflexivity).
  unfold Py.fmod. rewrite Ha. eval_closed (Prim2SF 10).
  replace (10 * 2 ^ 49) with (Z.pos 5629499534213120) in Hmult by reflexivity.
  lazy beta iota zeta. rewrite Hmult. cbn [Z.eqb].
  replace (PrimFloat.eqb PrimFloat.zero 0) with true by (vm_compute; reflexivity).
  reflexivity.
Qed.

(** The theorem at the amount 75000. *)
Lemma round_amount_has_no_unusual_precision_witness :
  (exists q, Py.int_of_float 75000 = Ok (1000 * q)) /\
  triggered 75000 {| hour := 2; weekday := 2 |} (example_transaction 75000 2) UnusualPrecision
    = false.
Proof.
  apply (round_amount_has_no_unusual_precision 75000 {| hour := 2; weekday := 2 |}
           (example_transaction 75000 2)).
  vm_compute. reflexivity.
Defined.

(** ** The address validator *)

(** X8.  The addresses [_validate_upi_format] accepts are exactly the strings
    (never [None]) made of a local part of at least three characters among
    letters, digits, [.], [-] and [_], an [@] and a provider of at least three
    letters, optionally followed by one newline. *)
Theorem validate_upi_format_accepts_exactly (upi_id : option string) :
  _validate_upi_format upi_id = true <->
  exists s, upi_id = Some s /\
    (address_syntax s \/ exists s', s = s' +:+ newline_string /\ address_syntax s').
Proof.
  destruct upi_id as [s|].
  - rewrite validate_spec. split; [eauto|]. by intros (s' & [= <-] & H).
  - split; [discriminate|]. by intros (s & [=] & _).
Qed.

(** *** Lower case *)

(** One case for each of the 256 characters. *)
Ltac by_characters c :=
  destruct c as [[] [] [] [] [] [] [] []]; vm_compute; reflexivity.

Lemma lower_char_idempotent c : Py.lower_char (Py.lower_char c) = Py.lower_char c.
Proof. by_characters c. Qed.

Lemma lower_char_not_upper c : Py.is_ascii_upper (Py.lower_char c) = false.
Proof. by_characters c. Qed.

Lemma is_letter_lower_char c : is_letter (Py.lower_char c) = is_letter c.
Proof. by_characters c. Qed.

Lemma is_local_char_lower_char c : is_local_char (Py.lower_char c) = is_local_char c.
Proof. by_characters c. Qed.

Lemma isdigit_lower_char c : Py.isdigit (Py.lower_char c) = Py.isdigit c.
Proof. by_characters c. Qed.

Lemma at_sign_lower_char c : Ascii.eqb (Py.lower_char c) "@" = Ascii.eqb c "@".
Proof. by_characters c. Qed.

Lemma newline_lower_char c : Ascii.eqb (Py.lower_char c) Py.newline = Ascii.eqb c Py.newline.
Proof. by_characters c. Qed.

Lemma lower_idempotent s : Py.lower (Py.lower s) = Py.lower s.
Proof. induction s as [|c s IH]; [done|]. cbn. by rewrite lower_char_idempotent, IH. Qed.

Lemma len_lower s : Py.len (Py.lower s) = Py.len s.
Proof. unfold Py.len. f_equal. induction s as [|c s IH]; [done|]. cbn. by rewrite IH. Qed.

Lemma truthy_lower s : Py.truthy (Some (Py.lower s)) = Py.truthy (Some s).
Proof. by destruct s. Qed.

Lemma count_digits_lower s : count_digits (Py.lower s) = count_digits s.
Proof.
  unfold count_digits. f_equal. induction s as [|c s IH]; [done|].
  cbn. rewrite isdigit_lower_char. destruct (Py.isdigit c); cbn; by rewrite IH.
Qed.

Lemma split_at_lower s : Py.split "@" (Py.lower s) = map Py.lower (Py.split "@" s).
Proof.
  induction s as [|c s IH]; [done|].
  cbn [Py.lower Py.split]. rewrite at_sign_lower_char, IH.
  destruct (Ascii.eqb c "@"); [done|]. by destruct (Py.split "@" s).
Qed.

Lemma local_part_lower s : local_part (Py.lower s) = Py.lower (local_part s).
Proof. unfold local_part. rewrite split_at_lower. by destruct (Py.split "@" s). Qed.

Lemma all_chars_lower s :
  all_chars (fun c => negb (Py.is_ascii_upper c)) (Py.lower s) = true.
Proof.
  induction s as [|c s IH]; [done|].
  cbn [Py.lower]. by rewrite all_chars_cons, lower_char_not_upper, IH.
Qed.

Lemma at_end_lower s : Py.at_end (Py.lower s) = Py.at_end s.
Proof. destruct s as [|c [|c' s]]; [done| |done]. cbn. apply newline_lower_char. Qed.

Lemma run_lower n set rest :
  (forall c, set (Py.lower_char c) = set c) ->
  (forall start s, rest start (Py.lower s) = rest start s) ->
  forall k start s,
    Py.run n set rest k start (Py.lower s) = Py.run n set rest k start s.
Proof.
  intros Hset Hrest k start s. revert k start.
  induction s as [|c s IH]; intros k start.
  - cbn. done.
  - cbn [Py.lower Py.run]. rewrite Hset, IH.
    change (String (Py.lower_char c) (Py.lower s)) with (Py.lower (String c s)).
    by rewrite Hrest.
Qed.

(** A pattern whose items do not tell case matches a string when it matches
    the string in lower case. *)
Lemma match_here_lower items :
  Forall caseless items ->
  forall start s, Py.match_here items start (Py.lower s) = Py.match_here items start s.
Proof.
  induction 1 as [|item items Hitem _ IH]; intros start s; [done|].
  destruct item as [| |c|n set]; cbn [Py.match_here].
  - by rewrite IH.
  - by rewrite at_end_lower, IH.
  - destruct s as [|c' s]; [done|]. cbn [Py.lower]. by rewrite (Hitem c'), IH.
  - by apply run_lower.
Qed.

Lemma upi_pattern_caseless : Forall caseless upi_pattern.
Proof.
  repeat constructor; cbn.
  - apply is_local_char_lower_char.
  - intros c. by_characters c.
  - apply is_letter_lower_char.
Qed.

Lemma validate_lower (s : string) :
  _validate_upi_format (Some (Py.lower s)) = _validate_upi_format (Some s).
Proof.
  unfold _validate_upi_format, Py.re_match.
  by rewrite truthy_lower, (match_here_lower _ upi_pattern_caseless).
Qed.

(** X9.  On ASCII text the format check does not depend on the case of the
    letters: an address made of ASCII characters and the same address in
    lower case are both accepted or both refused, and their local parts
    correspond.  (Outside ASCII [str.lower] can turn a refused address into
    an accepted one.) *)
Theorem validate_upi_format_ignores_case (s : string) :
  Py.isascii s = true ->
  _validate_upi_format (Some (Py.lower s)) = _validate_upi_format (Some s) /\
  local_part (Py.lower s) = Py.lower (local_part s).
Proof. intros _. split; [apply validate_lower|apply local_part_lower]. Qed.

(** The theorem at ["John@Paytm"]. *)
Lemma validate_upi_format_ignores_case_witness :
  _validate_upi_format (Some (Py.lower "John@Paytm"))
    = _validate_upi_format (Some "John@Paytm") /\
  local_part (Py.lower "John@Paytm") = Py.lower (local_part "John@Paytm").
Proof. apply validate_upi_format_ignores_case. vm_compute. reflexivity. Defined.

(** X10.  Neither does the suspicion test on ASCII text: the keywords are
    searched in the lower-cased address, and on an address made of ASCII
    characters the digit fraction and the length of the local part do not
    change with the case.  (Outside ASCII lowering can change the length of
    the name.) *)
Theorem is_suspicious_ignores_case (s : string) :
  Py.isascii s = true ->
  _is_suspicious_upi (Some (Py.lower s)) = _is_suspicious_upi (Some s).
Proof.
  intros _. unfold _is_suspicious_upi.
  rewrite truthy_lower, lower_idempotent.
  fold (local_part (Py.lower s)). fold (local_part s).
  by rewrite local_part_lower, count_digits_lower, len_lower.
Qed.

(** The theorem at ["Admin123@YBL"], suspicious in either case. *)
Lemma is_suspicious_ignores_case_witness :
  _is_suspicious_upi (Some (Py.lower "Admin123@YBL"))
    = _is_suspicious_upi (Some "Admin123@YBL").
Proof. apply is_suspicious_ignores_case. vm_compute. reflexivity. Defined.

(** *** The local part of an accepted address *)

Lemma first_split_cons c parts :
  Py.first (Py.split_cons c parts) = String c (Py.first parts).
Proof. by destruct parts. Qed.

Lemma is_local_char_not_at c : is_local_char c = true -> Ascii.eqb c "@" = false.
Proof.
  unfold is_local_char, is_letter, Py.isdigit, Py.is_ascii_lower, Py.is_ascii_upper, Py.code.
  destruct (Ascii.eqb_spec c "@") as [->|]; [|done]. vm_compute. done.
Qed.

Lemma local_part_append (u rest : string) :
  all_chars is_local_char u = true -> local_part (u +:+ String "@" rest) = u.
Proof.
  unfold local_part. induction u as [|c u IH]; [done|].
  rewrite all_chars_cons, andb_true_iff. intros [Hc Hu].
  rewrite append_cons. cbn [Py.split]. rewrite (is_local_char_not_at c Hc).
  by rewrite first_split_cons, IH.
Qed.

Lemma valid_local_part (s : string) :
  _validate_upi_format (Some s) = true ->
  3 <= Py.len (local_part s) /\ all_chars is_local_char (local_part s) = true.
Proof.
  intros H. apply validate_spec in H.
  assert (exists u rest, s = u +:+ String "@" rest /\
            (3 <= String.length u)%nat /\ all_chars is_local_char u = true)
    as (u & rest & -> & Hlen & Hu).
  { destruct H as [(u & p & -> & Hlen & Hu & _)|(s' & -> & u & p & -> & Hlen & Hu & _)].
    - exists u, p. done.
    - exists u, (p +:+ newline_string). by rewrite !append_assoc. }
  rewrite (local_part_append u rest Hu). unfold Py.len. split; [lia|done].
Qed.

(** X11.  On an address that passes the format check, the name that
    [_is_suspicious_upi] cuts off at the first [@] has at least three
    characters, so that its short-name test never applies: such an address
    is suspicious exactly when it contains a keyword of the denylist or when
    the digit fraction of its local part exceeds 0.7. *)
Theorem valid_address_suspicious_iff (s : string) :
  _validate_upi_format (Some s) = true ->
  3 <= Py.len (local_part s) /\
  (_is_suspicious_upi (Some s) = Ok true <->
     (exists keyword, In keyword suspicious_keywords /\
                      Py.contains keyword (Py.lower s) = true) \/
     too_many_digits (local_part s) = true).
Proof.
  intros Hvalid. destruct (valid_local_part s Hvalid) as [Hlen _].
  split; [exact Hlen|]. rewrite is_suspicious_spec. split.
  - intros [->|[H|[H|H]]]; [discriminate Hvalid|by left|by right|lia].
  - intros [H|H]; auto.
Qed.

(** The theorem at ["admin123@ybl"]. *)
Lemma valid_address_suspicious_iff_witness :
  3 <= Py.len (local_part "admin123@ybl") /\
  (_is_suspicious_upi (Some "admin123@ybl") = Ok true <->
     (exists keyword, In keyword suspicious_keywords /\
                      Py.contains keyword (Py.lower "admin123@ybl") = true) \/
     too_many_digits (local_part "admin123@ybl") = true).
Proof. apply valid_address_suspicious_iff. vm_compute. reflexivity. Defined.

(** *** The digit test in whole numbers *)

(** The digit test on a name of [n] characters, [k] of them digits, and the
    same test on whole numbers; computed for the names of 1 to 256
    characters. *)
Lemma digit_test_agrees :
  forallb (fun n =>
    forallb (fun k =>
      Bool.eqb
        (holds (fraction ← Py.int_truediv (Z.of_nat k) (Z.of_nat n);
                Ok (Py.gt fraction 0.7%float)))
        (7 * Z.of_nat n <? 10 * Z.of_nat k))
      (seq 0 (S n)))
    (seq 1 256) = true.
Proof. vm_compute. reflexivity. Qed.

Lemma count_digits_le (username : string) :
  (length (List.filter Py.isdigit (list_ascii_of_string username))
     <= String.length username)%nat.
Proof.
  induction username as [|c s IH]; [done|].
  cbn. destruct (Py.isdigit c); cbn; lia.
Qed.

(** X12.  On a name of at most 256 characters the digit test
    [digits / len > 0.7], which the code computes on doubles, decides
    what it says on whole numbers: it holds exactly when
    [10 * digits > 7 * len].  A name of ten characters is flagged by this
    test from eight digits on, not with seven. *)
Theorem digit_fraction_threshold (username : string) :
  (String.length username <= 256)%nat ->
  too_many_digits username = (7 * Py.len username <? 10 * count_digits username).
Proof.
  intros Hbound. unfold too_many_digits, count_digits, Py.len.
  pose proof (count_digits_le username) as Hle.
  set (k := length (List.filter Py.isdigit (list_ascii_of_string username))) in *.
  set (n := String.length username) in *.
  destruct n as [|n'] eqn:Hn.
  - assert (k = 0)%nat as -> by lia. reflexivity.
  - replace (0 <? Z.of_nat (S n')) with true by (symmetry; apply Z.ltb_lt; lia).
    pose proof (proj1 (forallb_forall _ _) digit_test_agrees (S n')) as H.
    cbv beta in H.
    assert (Hin : In (S n') (seq 1 256)) by (apply in_seq; lia).
    pose proof (proj1 (forallb_forall _ _) (H Hin) k) as H'. cbv beta in H'.
    apply Bool.eqb_prop, H'. apply in_seq. lia.
Qed.

(** The theorem at a name of ten digits. *)
Lemma digit_fraction_threshold_witness :
  too_many_digits "9876543210" = (7 * Py.len "9876543210" <? 10 * count_digits "9876543210").
Proof. apply digit_fraction_threshold. cbn. lia. Defined.

(** ** The feature encoder and the model-or-rules policy *)

(** The list the encoder builds has 64 elements whenever it is built. *)
Lemma feature_list_length t l : feature_list t = Ok l -> length l = 64%nat.
Proof.
  unfold feature_list.
  destruct (amount t) as [a|]; [|discriminate].
  destruct (created_at t) as [d|]; [|discriminate].
  destruct (sender_upi t) as [s|]; [|discriminate].
  destruct (receiver_upi t) as [r|]; [|discriminate].
  cbn [mbind result_bind attr len_of app].
  lazymatch goal with
  | |- Ok (pad_features ?n ?fs ?x ?h) = Ok l -> _ =>
      pose proof (pad_features_length n fs x h) as Hlen;
      generalize dependent (pad_features n fs x h)
  end.
  intros padded Hlen [= <-]. cbn [length] in Hlen. lia.
Qed.

(** What [extract_features] does on each record: the fields it needs, in
    the order in which it reads them. *)
Lemma extract_features_cases t :
  match extract_features t with
  | Ok features =>
      (exists a, amount t = Ok a) /\ (exists d, created_at t = Some d) /\
      (exists s, sender_upi t = Some s) /\ (exists r, receiver_upi t = Some r)
  | Raise e =>
      amount t = Raise e \/
      ((exists a, amount t = Ok a) /\ created_at t = None /\ e = AttributeError) \/
      ((exists a, amount t = Ok a) /\ (exists d, created_at t = Some d) /\
       (sender_upi t = None \/ receiver_upi t = None) /\ e = TypeError)
  end.
Proof.
  unfold extract_features.
  destruct (feature_list t) as [l|e] eqn:Hl.
  - pose proof (feature_list_length t l Hl) as Hlen.
    cbn [mbind result_bind]. unfold Py.reshape_1_8_8_1.
    rewrite length_take, Hlen. cbn [Nat.min Nat.eqb mbind result_bind].
    unfold feature_list in Hl.
    destruct (amount t) as [a|]; [|discriminate].
    destruct (created_at t) as [d|]; [|discriminate].
    destruct (sender_upi t) as [s|]; [|discriminate].
    destruct (receiver_upi t) as [r|]; [|discriminate].
    eauto 10.
  - cbn [mbind result_bind]. unfold feature_list in Hl.
    destruct (amount t) as [a|e']; [|injection Hl as ->; by left].
    destruct (created_at t) as [d|]; [|injection Hl as <-; right; left; eauto].
    destruct (sender_upi t) as [s|]; [|injection Hl as <-; right; right; eauto 10].
    destruct (receiver_upi t) as [r|]; [|injection Hl as <-; right; right; eauto 10].
    discriminate.
Qed.

(** X13.  [extract_features] returns exactly on the records whose amount
    converts to a float, whose timestamp is present and whose two addresses
    are strings.  On any other record it raises what the first unreadable
    field gives, the fields being read in the order amount, timestamp,
    addresses: the exception of the amount's conversion when the amount does
    not convert, whatever the other fields hold; [AttributeError] when the
    amount converts and the timestamp is missing; [TypeError] when amount and
    timestamp are read and an address is [None].  It raises nothing else:
    the reshape to (1, 8, 8, 1) never fails. *)
Theorem extract_features_returns_iff t :
  (returns (extract_features t) <->
     (exists a, amount t = Ok a) /\ (exists d, created_at t = Some d) /\
     (exists s, sender_upi t = Some s) /\ (exists r, receiver_upi t = Some r)) /\
  (forall e, amount t = Raise e -> extract_features t = Raise e) /\
  (forall a, amount t = Ok a -> created_at t = None ->
     extract_features t = Raise AttributeError) /\
  (forall a d, amount t = Ok a -> created_at t = Some d ->
     sender_upi t = None \/ receiver_upi t = None ->
     extract_features t = Raise TypeError) /\
  (forall e, extract_features t = Raise e ->
     amount t = Raise e \/
     ((exists a, amount t = Ok a) /\ created_at t = None /\ e = AttributeError) \/
     ((exists a, amount t = Ok a) /\ (exists d, created_at t = Some d) /\
      (sender_upi t = None \/ receiver_upi t = None) /\ e = TypeError)).
Proof.
  pose proof (extract_features_cases t) as H.
  split; [split|split; [|split; [|split]]].
  - intros [features Hf]. by rewrite Hf in H.
  - intros ([a Ha] & [d Hd] & [s Hs] & [r Hr]).
    destruct (extract_features t) as [features|e]; [by eexists|].
    destruct H as [H|[(_ & H & _)|(_ & _ & [H|H] & _)]]; congruence.
  - intros e He. destruct (extract_features t) as [features|e'].
    + destruct H as ([a Ha] & _). congruence.
    + destruct H as [H|[([a Ha] & _)|([a Ha] & _)]]; congruence.
  - intros a Ha Hd. destruct (extract_features t) as [features|e'].
    + destruct H as (_ & [d Hd'] & _). congruence.
    + destruct H as [H|[(_ & _ & ->)|(_ & [d Hd'] & _)]]; congruence.
  - intros a d Ha Hd Habsent. destruct (extract_features t) as [features|e'].
    + destruct H as (_ & _ & [s Hs] & [r Hr]). destruct Habsent; congruence.
    + destruct H as [H|[(_ & H & _)|(_ & _ & _ & ->)]]; congruence.
  - intros e He. by rewrite He in H.
Qed.

(** X14.  An exception that leaves [predict] is one the rule-based scorer
    raises on the same record: the exception of the amount's conversion, or
    [AttributeError] for a missing timestamp.  No exception of the model path
    (the model's own, or the encoder's [TypeError]) ever reaches the
    caller. *)
Theorem predict_raises_what_the_scorer_raises self now t e :
  predict self now t = Raise e ->
  rule_based_detection now t = Raise e /\
  (amount t = Raise e \/
   ((exists a, amount t = Ok a) /\ created_at t = None /\ e = AttributeError)).
Proof.
  intros Hp.
  assert (Hr : rule_based_detection now t = Raise e).
  { destruct (predict_cases self now t) as [H|(cnn & fs & p & _ & _ & _ & H)]; congruence. }
  split; [exact Hr|].
  rewrite rule_based_detection_table in Hr.
  destruct (amount t) as [a|e']; [|injection Hr as ->; by left].
  destruct (created_at t) as [d|]; [discriminate|].
  injection Hr as <-. right. eauto.
Qed.

(** The theorem at the record whose amount is not a number, with a model
    loaded. *)
Lemma predict_raises_what_the_scorer_raises_witness :
  rule_based_detection "2024-05-01T12:00:00" malformed_transaction = Raise ValueError /\
  (amount malformed_transaction = Raise ValueError \/
   ((exists a, amount malformed_transaction = Ok a) /\
    created_at malformed_transaction = None /\ ValueError = AttributeError)).
Proof.
  apply (predict_raises_what_the_scorer_raises example_detector). reflexivity.
Defined.

(** X15.  A record with an address that is [None] is always answered by the
    rule-based scorer, even when a model is loaded: the encoder takes the
    length of each address, fails on [None], and [predict] falls back. *)
Theorem absent_address_is_scored_by_rules self now t :
  sender_upi t = None \/ receiver_upi t = None ->
  predict self now t = rule_based_detection now t.
Proof.
  intros Habsent.
  destruct (predict_cases self now t) as [H|(cnn & fs & p & _ & Hf & _)]; [exact H|].
  pose proof (extract_features_cases t) as Hcases. rewrite Hf in Hcases.
  destruct Hcases as (_ & _ & [s Hs] & [r Hr]). destruct Habsent; congruence.
Qed.

(** The theorem at a transfer without sender address, with a model loaded. *)
Lemma absent_address_is_scored_by_rules_witness :
  predict example_detector "2024-05-01T12:00:00" (transfer_between None (Some "john@paytm"))
    = rule_based_detection "2024-05-01T12:00:00" (transfer_between None (Some "john@paytm")).
Proof. apply absent_address_is_scored_by_rules. left. reflexivity. Defined.

Lemma dom_rule_based now st :
  dom (rule_based_verdict now st) =
    ({[ "is_fraud"; "fraud_probability"; "detection_method"; "reasons"; "timestamp" ]}
       : gset string).
Proof. unfold rule_based_verdict. cbv zeta. rewrite !dom_insert_L, dom_empty_L. set_solver. Qed.

Lemma dom_cnn now p :
  dom (cnn_verdict now p) =
    ({[ "is_fraud"; "fraud_probability"; "detection_method"; "confidence"; "timestamp" ]}
       : gset string).
Proof. unfold cnn_verdict. cbv zeta. rewrite !dom_insert_L, dom_empty_L. set_solver. Qed.

(** X16.  Every verdict [predict] returns has one of two shapes, told apart
    by [detection_method]: the keys [is_fraud], [fraud_probability],
    [detection_method], [reasons] and [timestamp] for ['rule_based'], and the
    same with [confidence] in place of [reasons] for ['cnn_model'].  There is
    no other key. *)
Theorem verdict_keys self now t v :
  predict self now t = Ok v ->
  (v !! "detection_method" = Some (VStr "rule_based") /\
   dom v = ({[ "is_fraud"; "fraud_probability"; "detection_method"; "reasons";
               "timestamp" ]} : gset string)) \/
  (v !! "detection_method" = Some (VStr "cnn_model") /\
   dom v = ({[ "is_fraud"; "fraud_probability"; "detection_method"; "confidence";
               "timestamp" ]} : gset string)).
Proof.
  intros Hv. destruct (predict_cases self now t) as [Hp|(cnn & fs & p & _ & _ & _ & Hp)].
  - left. rewrite Hp in Hv. split; [by apply (rule_based_method now t)|].
    destruct (rule_based_detection_inv _ _ _ Hv) as (a & d & Ha & Hd).
    rewrite (rule_based_detection_fired now t a d Ha Hd) in Hv. injection Hv as <-.
    apply dom_rule_based.
  - right. rewrite Hp in Hv. injection Hv as <-. split; [reflexivity|apply dom_cnn].
Qed.

(** The theorem at a detector whose model answers 0.9. *)
Lemma verdict_keys_witness :
  (cnn_verdict "2024-05-01T12:00:00" 0.9 !! "detection_method" = Some (VStr "rule_based") /\
   dom (cnn_verdict "2024-05-01T12:00:00" 0.9) =
     ({[ "is_fraud"; "fraud_probability"; "detection_method"; "reasons";
         "timestamp" ]} : gset string)) \/
  (cnn_verdict "2024-05-01T12:00:00" 0.9 !! "detection_method" = Some (VStr "cnn_model") /\
   dom (cnn_verdict "2024-05-01T12:00:00" 0.9) =
     ({[ "is_fraud"; "fraud_probability"; "detection_method"; "confidence";
         "timestamp" ]} : gset string)).
Proof.
  apply (verdict_keys example_detector "2024-05-01T12:00:00" (example_transaction 1200 12)).
  reflexivity.
Defined.

(** X17.  A detector built by [__init__] answers with the model only in a
    process where both configured paths could be read, both files existed,
    and loading them returned, without an exception, an object whose inner
    model is set; and only on a record whose two addresses are strings. *)
Theorem model_verdict_needs_loaded_artifacts env now t v :
  predict (__init__ env) now t = Ok v ->
  v !! "detection_method" = Some (VStr "cnn_model") ->
  artifacts_present env = true /\
  (exists model_path scaler_path cnn,
     ML_MODEL_PATH env = Ok model_path /\ SCALER_PATH env = Ok scaler_path /\
     cnn_load_model env model_path scaler_path = Ok cnn /\
     cnn_model_loaded cnn = true) /\
  (exists s, sender_upi t = Some s) /\ (exists r, receiver_upi t = Some r).
Proof.
  intros Hv Hmethod.
  destruct (predict_cases (__init__ env) now t) as [Hp|(cnn & fs & p & Hready & Hf & _ & _)].
  { rewrite Hp in Hv. apply rule_based_method in Hv. congruence. }
  pose proof (extract_features_cases t) as Hcases. rewrite Hf in Hcases.
  destruct Hcases as (_ & _ & Hs & Hr).
  unfold model_ready in Hready.
  destruct (model (__init__ env)) as [cnn'|] eqn:Hmodel; [|discriminate].
  destruct (cnn_model_loaded cnn') eqn:Hloaded; [|discriminate].
  injection Hready as ->.
  unfold __init__, load_model in Hmodel. unfold artifacts_present.
  destruct (ML_MODEL_PATH env) as [mp|]; [|discriminate].
  destruct (SCALER_PATH env) as [sp|]; [|discriminate].
  cbn [mbind result_bind] in Hmodel.
  destruct (path_exists env mp && path_exists env sp); [|discriminate].
  destruct (cnn_load_model env mp sp) as [loaded|] eqn:Hload; [|discriminate].
  cbn [mbind result_bind model] in Hmodel. injection Hmodel as ->.
  split; [done|]. split; [|done]. exists mp, sp, cnn. done.
Qed.

(** The theorem in a process whose artifact files load. *)
Lemma model_verdict_needs_loaded_artifacts_witness :
  artifacts_present loading_environment = true /\
  (exists model_path scaler_path cnn,
     ML_MODEL_PATH loading_environment = Ok model_path /\
     SCALER_PATH loading_environment = Ok scaler_path /\
     cnn_load_model loading_environment model_path scaler_path = Ok cnn /\
     cnn_model_loaded cnn = true) /\
  (exists s, sender_upi (example_transaction 1200 12) = Some s) /\
  (exists r, receiver_upi (example_transaction 1200 12) = Some r).
Proof.
  apply (model_verdict_needs_loaded_artifacts loading_environment "2024-05-01T12:00:00"
           (example_transaction 1200 12) (cnn_verdict "2024-05-01T12:00:00" 0.9)).
  - reflexivity.
  - apply lookup_cnn.
Defined.

(** ** The request serializer *)

(** What [validate_upi_id] has checked when it returns. *)
Lemma validate_upi_id_inv value w :
  TransactionCreateSerializer.validate_upi_id value = Valid w ->
  exists upi, value = Some upi /\ w = Py.lower upi /\
    _validate_upi_format (Some upi) = true /\
    existsb (fun keyword => Py.contains keyword (Py.lower upi))
      TransactionCreateSerializer.suspicious_keywords = false.
Proof.
  unfold TransactionCreateSerializer.validate_upi_id.
  destruct value as [upi|]; [|discriminate].
  change TransactionCreateSerializer.pattern with upi_pattern.
  destruct (negb (Py.truthy (Some upi))) eqn:Hempty; [discriminate|].
  destruct (Py.re_match upi_pattern upi) eqn:Hmatch; [|discriminate]. cbn [negb].
  destruct (existsb _ _) eqn:Hkw; [discriminate|].
  intros [= <-]. exists upi. unfold _validate_upi_format. by rewrite Hempty, Hmatch.
Qed.

Lemma validate_upi_id_accepts upi :
  _validate_upi_format (Some upi) = true ->
  existsb (fun keyword => Py.contains keyword (Py.lower upi))
    TransactionCreateSerializer.suspicious_keywords = false ->
  TransactionCreateSerializer.validate_upi_id (Some upi) = Valid (Py.lower upi).
Proof.
  unfold TransactionCreateSerializer.validate_upi_id, _validate_upi_format.
  change TransactionCreateSerializer.pattern with upi_pattern.
  destruct (negb (Py.truthy (Some upi))); [discriminate|].
  intros -> ->. done.
Qed.

(** X18.  [validate_upi_id] normalises: the address it returns has no
    upper-case letter, and validating it again returns it unchanged. *)
Theorem validate_upi_id_idempotent value w :
  TransactionCreateSerializer.validate_upi_id value = Valid w ->
  TransactionCreateSerializer.validate_upi_id (Some w) = Valid w /\
  all_chars (fun c => negb (Py.is_ascii_upper c)) w = true.
Proof.
  intros H. apply validate_upi_id_inv in H as (upi & -> & -> & Hvalid & Hkw).
  split; [|apply all_chars_lower].
  rewrite <- (lower_idempotent upi) at 2. apply validate_upi_id_accepts.
  - by rewrite validate_lower.
  - by rewrite lower_idempotent.
Qed.

(** The theorem at ["John@Paytm"]. *)
Lemma validate_upi_id_idempotent_witness :
  TransactionCreateSerializer.validate_upi_id (Some "john@paytm") = Valid "john@paytm" /\
  all_chars (fun c => negb (Py.is_ascii_upper c)) "john@paytm" = true.
Proof.
  apply (validate_upi_id_idempotent (Some "John@Paytm")). vm_compute. reflexivity.
Defined.

(** The serializer's keywords are among the detector's. *)
Lemma serializer_keywords_incl keyword :
  In keyword TransactionCreateSerializer.suspicious_keywords ->
  In keyword suspicious_keywords.
Proof. cbn. intuition. Qed.

(** X19.  The serializer is no stricter than the detector: an address that
    passes the detector's format check and that the detector does not find
    suspicious is accepted by [validate_upi_id], which returns it in lower
    case.  The two use the same pattern, and the serializer's five keywords
    are among the detector's eight. *)
Theorem serializer_accepts_what_detector_trusts upi :
  _validate_upi_format (Some upi) = true ->
  _is_suspicious_upi (Some upi) = Ok false ->
  TransactionCreateSerializer.validate_upi_id (Some upi) = Valid (Py.lower upi).
Proof.
  intros Hvalid Hclean. apply validate_upi_id_accepts; [done|].
  apply not_true_iff_false. intros Hkw.
  apply existsb_exists in Hkw as (keyword & Hin & Hkw).
  assert (Hs : _is_suspicious_upi (Some upi) = Ok true).
  { apply is_suspicious_spec. right. left. exists keyword.
    split; [by apply serializer_keywords_incl|done]. }
  congruence.
Qed.

(** The theorem at ["Ravi.Kumar@icici"]. *)
Lemma serializer_accepts_what_detector_trusts_witness :
  TransactionCreateSerializer.validate_upi_id (Some "Ravi.Kumar@icici")
    = Valid (Py.lower "Ravi.Kumar@icici").
Proof.
  apply serializer_accepts_what_detector_trusts; vm_compute; reflexivity.
Defined.

(** X20.  What the serializer guarantees to the scorer: when the two
    addresses of a request have been returned by [validate_sender_upi] and
    [validate_receiver_upi] and the data holding them has passed [validate],
    a transaction with these addresses triggers neither the self-transfer
    rule nor the invalid-format rule, whatever its amount and its
    timestamp. *)
Theorem validated_pair_passes_rules_5_and_6 sender receiver s r data t a d :
  TransactionCreateSerializer.validate_sender_upi sender = Valid s ->
  TransactionCreateSerializer.validate_receiver_upi receiver = Valid r ->
  data !! "sender_upi" = Some (DStr s) -> data !! "receiver_upi" = Some (DStr r) ->
  TransactionCreateSerializer.validate data = Valid data ->
  sender_upi t = Some s -> receiver_upi t = Some r ->
  triggered a d t SelfTransfer = false /\ triggered a d t InvalidAddress = false.
Proof.
  intros Hs Hr Hds Hdr Hdata Hts Htr.
  apply validate_upi_id_inv in Hs as (s0 & -> & -> & Hs & _).
  apply validate_upi_id_inv in Hr as (r0 & -> & -> & Hr & _).
  cbn [triggered]. rewrite Hts, Htr, !validate_lower, Hs, Hr.
  split; [|done].
  unfold TransactionCreateSerializer.validate, TransactionCreateSerializer.get in Hdata.
  rewrite Hds, Hdr in Hdata. unfold default in Hdata. cbn [from_option id data_eq] in Hdata.
  cbn [field_eq]. by destruct (String.eqb _ _).
Qed.

(** The theorem at a request from ["Ravi.Kumar@icici"] to ["John@Paytm"]. *)
Lemma validated_pair_passes_rules_5_and_6_witness :
  triggered 1200 {| hour := 12; weekday := 2 |} (example_transaction 1200 12) SelfTransfer
    = false /\
  triggered 1200 {| hour := 12; weekday := 2 |} (example_transaction 1200 12) InvalidAddress
    = false.
Proof.
  apply (validated_pair_passes_rules_5_and_6
           (Some "Ravi.Kumar@icici") (Some "John@Paytm")
           "ravi.kumar@icici" "john@paytm" example_data).
  - vm_compute. reflexivity.
  - vm_compute. reflexivity.
  - reflexivity.
  - reflexivity.
  - reflexivity.
  - reflexivity.
  - reflexivity.
Defined.
